(** * Email validation GraphQL server

    A shallow embedding of the two server entry points of the repository,
    [src/server.js] and [src/unnamed/part_000], and the properties their
    specification states about them.

    Strings are byte strings ([string]): the resolver only concatenates, so
    nothing depends on the alphabet.  A JavaScript call either returns a value
    or throws; [JS.completion] records which. *)

From Stdlib Require Import Ascii Bool Arith.
From stdpp Require Import base strings list gmap pretty.

(** ** JavaScript values and calls *)

Module JS.

(** The outcome of evaluating a call: a returned value or a thrown error. *)
Inductive completion (A : Type) : Type :=
| Return (a : A)
| Throw (err : string).
Arguments Return {A} a.
Arguments Throw {A} err.

(** Sequencing of calls: an exception raised by the first one leaves the
    enclosing function, as there is no [try] around it. *)
Definition bind {A B : Type} (c : completion A) (k : A -> completion B)
  : completion B :=
  match c with
  | Return a => k a
  | Throw err => Throw err
  end.

(** [String.prototype.startsWith] *)
Fixpoint starts_with (prefix s : string) : bool :=
  match prefix, s with
  | EmptyString, _ => true
  | String _ _, EmptyString => false
  | String a prefix', String b s' =>
      if Ascii.eqb a b then starts_with prefix' s' else false
  end.

Fixpoint rev_onto (s acc : string) : string :=
  match s with
  | EmptyString => acc
  | String c s' => rev_onto s' (String c acc)
  end.

Definition reverse (s : string) : string := rev_onto s EmptyString.

(** [String.prototype.endsWith]: does [s] finish with [suffix]?  Read from
    the last character backwards, that is a [startsWith]. *)
Definition endsWith (s suffix : string) : bool :=
  starts_with (reverse suffix) (reverse s).

End JS.

Notation "'let!' x ':=' c 'in' k" := (JS.bind c (fun x => k))
  (at level 10, x name, c at level 100, k at level 200).

(** The [args] object of the field: the schema declares the one argument
    [email : String!], so the value the resolver destructures is a string. *)
Record args : Type := { email : string }.

(** The type of [validator.isEmail] restricted to strings. *)
Definition checker : Type := string -> JS.completion bool.

(** ** HTTP messages *)

Module Http.

Inductive method : Type := GET | HEAD | POST | PUT | PATCH | DELETE | OPTIONS.

Definition method_eqb (m1 m2 : method) : bool :=
  match m1, m2 with
  | GET, GET | HEAD, HEAD | POST, POST | PUT, PUT
  | PATCH, PATCH | DELETE, DELETE | OPTIONS, OPTIONS => true
  | _, _ => false
  end.

Definition method_name (m : method) : string :=
  match m with
  | GET => "GET" | HEAD => "HEAD" | POST => "POST" | PUT => "PUT"
  | PATCH => "PATCH" | DELETE => "DELETE" | OPTIONS => "OPTIONS"
  end.

(** A request as Node hands it to the handlers: the method, the path of the
    URL, its query string, the headers under their lower-case names
    ([req.headers]) and the body. *)
Record request : Type := {
  req_method : method;
  req_path : string;
  req_query : string;
  req_headers : gmap string string;
  req_body : string
}.

(** The [res] object a handler writes to.  Header names are stored in lower
    case, as Node does; [body] is [None] while nothing was written. *)
Record response : Type := {
  statusCode : nat;
  headers : gmap string string;
  body : option string
}.

(** The response object Node hands to the first handler. *)
Definition fresh : response :=
  {| statusCode := 200; headers := ∅; body := None |}.

Definition lower_ascii (c : ascii) : ascii :=
  let n := nat_of_ascii c in
  if (65 <=? n) && (n <=? 90) then ascii_of_nat (n + 32) else c.

Fixpoint lower (s : string) : string :=
  match s with
  | EmptyString => EmptyString
  | String c s' => String (lower_ascii c) (lower s')
  end.

(** [res.setHeader(name, value)] *)
Definition setHeader (name value : string) (res : response) : response :=
  {| statusCode := statusCode res;
     headers := <[lower name := value]> (headers res);
     body := body res |}.

(** [res.removeHeader(name)] *)
Definition removeHeader (name : string) (res : response) : response :=
  {| statusCode := statusCode res;
     headers := delete (lower name) (headers res);
     body := body res |}.

(** [res.statusCode = code] *)
Definition setStatus (code : nat) (res : response) : response :=
  {| statusCode := code; headers := headers res; body := body res |}.

(** [res.getHeader(name)] *)
Definition getHeader (name : string) (res : response) : option string :=
  headers res !! lower name.

(** A header value that JavaScript takes for true: present and not empty. *)
Definition truthy (value : option string) : bool :=
  match value with
  | Some (String _ _) => true
  | _ => false
  end.

(** The directives of a [Cache-Control] value: the comma separated tokens,
    blanks dropped. *)
Fixpoint tokens (s cur : string) : list string :=
  match s with
  | EmptyString => [cur]
  | String c s' =>
      if Ascii.eqb c "," then cur :: tokens s' EmptyString
      else if Ascii.eqb c " " then tokens s' cur
      else tokens s' (cur +:+ String c EmptyString)
  end.

Definition directives (value : string) : list string := tokens value EmptyString.

(** Does the response forbid every cache to store or reuse it? *)
Definition forbids_caching (res : response) : bool :=
  match getHeader "Cache-Control" res with
  | Some value =>
      forallb (fun d => bool_decide (d ∈ directives value))
              ["no-store"; "no-cache"; "must-revalidate"; "proxy-revalidate"]
  | None => false
  end.

(** Is the response declared as HTML? *)
Definition is_html (res : response) : bool :=
  match getHeader "Content-Type" res with
  | Some type => JS.starts_with "text/html" type
  | None => false
  end.

End Http.

(** ** The Express application object

    Library model (express 4, with its router, [fresh] and [finalhandler]):
    an application is the stack of layers that [app.use] and [app.get] push,
    in registration order; a request walks the stack until a handler ends the
    response instead of calling [next]. *)

Module Express.
Import Http.

(** What the model takes from the library as it stands: the error document
    of the 404, the function that derives an [ETag] from a body (the
    ['etag fn'] setting), the content type with its charset set to UTF-8
    ([setCharset]), and the comparison of two HTTP dates. *)
Record settings : Type := {
  error_page : request -> string;
  etag : string -> string;
  with_utf8 : string -> string;
  date_le : string -> string -> bool
}.

Inductive outcome : Type :=
| Next      (* the handler called [next()] *)
| Ended.    (* the handler finished the response *)

Definition handler : Type := request -> response -> response * outcome.

Inductive layer : Type :=
| Use (mount : option string) (h : handler)
| Route (m : method) (path : string) (h : handler).

Definition app : Type := list layer.

(** [express()] *)
Definition express : app := [].

(** [app.use(h)], [app.use(path, h)] and [app.get(path, h)] mutate the
    application: each returns the stack with one more layer. *)
Definition use (h : handler) (a : app) : app := a ++ [Use None h].
Definition use_at (path : string) (h : handler) (a : app) : app :=
  a ++ [Use (Some path) h].
Definition get (path : string) (h : handler) (a : app) : app :=
  a ++ [Route GET path h].

(** Paths are matched without regard to case, and one trailing slash is
    accepted (the defaults of the router). *)
Definition route_match (path url : string) : bool :=
  let u := lower url in
  let p := lower path in
  String.eqb u p || String.eqb u (p +:+ "/").

Definition mount_match (path url : string) : bool :=
  let u := lower url in
  let p := lower path in
  String.eqb u p || JS.starts_with (p +:+ "/") u.

(** A [GET] route also answers [HEAD]. *)
Definition method_match (m : method) (req : request) : bool :=
  method_eqb m (req_method req)
  || (method_eqb m GET && method_eqb (req_method req) HEAD).

(** The methods a route reports in an automatic [OPTIONS] answer. *)
Definition route_options (m : method) : list string :=
  if method_eqb m GET then ["GET"; "HEAD"] else [method_name m].

Definition appendMethods (options methods : list string) : list string :=
  foldl (fun acc m => if bool_decide (m ∈ acc) then acc else acc ++ [m])
        options methods.

(** *** Conditional requests ([fresh]) *)

Fixpoint split_on (sep : ascii) (s : string) : list string :=
  match s with
  | EmptyString => [EmptyString]
  | String c s' =>
      if Ascii.eqb c sep then EmptyString :: split_on sep s'
      else match split_on sep s' with
           | token :: rest => String c token :: rest
           | [] => [String c EmptyString]
           end
  end.

Fixpoint drop_while (blank : ascii -> bool) (s : string) : string :=
  match s with
  | EmptyString => EmptyString
  | String c s' => if blank c then drop_while blank s' else s
  end.

Definition trim (blank : ascii -> bool) (s : string) : string :=
  JS.reverse (drop_while blank (JS.reverse (drop_while blank s))).

(** [/(?:^|,)\s*?no-cache\s*?(?:,|$)/.test(value)] *)
Definition no_cache (value : string) : bool :=
  existsb (fun part => String.eqb (trim Ascii.is_space part) "no-cache")
          (split_on "," value).

(** [parseTokenList]: the comma separated tokens, spaces around them cut. *)
Definition parseTokenList (value : string) : list string :=
  trim (fun c => Ascii.eqb c " ") <$> split_on "," value.

Definition etag_match (tag token : string) : bool :=
  String.eqb token tag
  || String.eqb token ("W/" +:+ tag)
  || String.eqb ("W/" +:+ token) tag.

(** [fresh(reqHeaders, { etag, 'last-modified' })]: are the validators the
    request carries still good for the response about to be sent? *)
Definition freshness (st : settings) (reqHeaders : gmap string string)
           (etagHeader lastModified : option string) : bool :=
  let modifiedSince := reqHeaders !! "if-modified-since" in
  let noneMatch := reqHeaders !! "if-none-match" in
  if negb (truthy modifiedSince) && negb (truthy noneMatch) then false
  else if match reqHeaders !! "cache-control" with
          | Some value => no_cache value
          | None => false
          end then false
  else if truthy noneMatch
          && negb (bool_decide (noneMatch = Some "*"))
          && negb (match etagHeader, noneMatch with
                   | Some (String c tag), Some value =>
                       existsb (etag_match (String c tag)) (parseTokenList value)
                   | _, _ => false
                   end) then false
  else if truthy modifiedSince
          && negb (match lastModified, modifiedSince with
                   | Some (String c date), Some since =>
                       date_le st (String c date) since
                   | _, _ => false
                   end) then false
  else true.

(** [req.fresh] *)
Definition req_fresh (st : settings) (req : request) (res : response) : bool :=
  match req_method req with
  | GET | HEAD =>
      if ((200 <=? statusCode res) && (statusCode res <? 300))
         || (statusCode res =? 304)
      then freshness st (req_headers req)
                     (getHeader "ETag" res) (getHeader "Last-Modified" res)
      else false
  | _ => false
  end.

(** *** Responses *)

(** [res.send(text)] with a string.  The content type defaults to HTML,
    [Content-Length] and (unless one is set) [ETag] are derived from the
    text; a fresh conditional request turns the status into 304; a 204 or
    304 loses its content headers and its text, a 205 its text; [HEAD] gets
    no body. *)
Definition send (st : settings) (req : request) (text : string) (res : response)
  : response :=
  let res1 :=
    match getHeader "Content-Type" res with
    | Some (String c type) =>
        setHeader "Content-Type" (with_utf8 st (String c type)) res
    | _ => setHeader "Content-Type" "text/html; charset=utf-8" res
    end in
  let res2 := setHeader "Content-Length" (pretty (String.length text)) res1 in
  let res3 :=
    if truthy (getHeader "ETag" res2) then res2
    else match etag st text with
         | EmptyString => res2
         | tag => setHeader "ETag" tag res2
         end in
  let res4 := if req_fresh st req res3 then setStatus 304 res3 else res3 in
  let stripped := (statusCode res4 =? 204) || (statusCode res4 =? 304) in
  let res5 :=
    if stripped
    then removeHeader "Transfer-Encoding"
           (removeHeader "Content-Length" (removeHeader "Content-Type" res4))
    else res4 in
  let reset := statusCode res5 =? 205 in
  let res6 :=
    if reset
    then removeHeader "Transfer-Encoding" (setHeader "Content-Length" "0" res5)
    else res5 in
  {| statusCode := statusCode res6;
     headers := headers res6;
     body := if method_eqb (req_method req) HEAD then None
             else Some (if stripped || reset then EmptyString else text) |}.

(** The answer when the stack is exhausted ([finalhandler]): status 404,
    the headers set so far kept, but for three content headers, under those
    of the error document; [HEAD] gets no body. *)
Definition notFound (st : settings) (req : request) (res : response) : response :=
  let res1 :=
    removeHeader "Content-Range"
      (removeHeader "Content-Language" (removeHeader "Content-Encoding" res)) in
  let res2 :=
    setHeader "Content-Length" (pretty (String.length (error_page st req)))
      (setHeader "Content-Type" "text/html; charset=utf-8"
         (setHeader "X-Content-Type-Options" "nosniff"
            (setHeader "Content-Security-Policy" "default-src 'none'" res1))) in
  {| statusCode := 404;
     headers := headers res2;
     body := if method_eqb (req_method req) HEAD then None
             else Some (error_page st req) |}.

(** [sendOptionsResponse]: the automatic answer to [OPTIONS]. *)
Definition sendOptionsResponse (st : settings) (req : request)
           (options : list string) (res : response) : response :=
  let allowed := String.concat "," options in
  send st req allowed (setHeader "Allow" allowed res).

(** The router.  A layer whose path matches runs its handler; a route whose
    path matches but whose method does not is skipped, and for [OPTIONS] its
    methods are noted.  When no layer answered, an [OPTIONS] request with
    noted methods gets the automatic answer, any other request the 404. *)
Fixpoint walk (st : settings) (stack : app) (req : request) (res : response)
         (options : list string) : response :=
  match stack with
  | [] =>
      if method_eqb (req_method req) OPTIONS
         && negb (bool_decide (options = []))
      then sendOptionsResponse st req options res
      else notFound st req res
  | Use mount h :: rest =>
      if match mount with
         | Some path => mount_match path (req_path req)
         | None => true
         end
      then match h req res with
           | (res', Ended) => res'
           | (res', Next) => walk st rest req res' options
           end
      else walk st rest req res options
  | Route m path h :: rest =>
      if route_match path (req_path req) then
        if method_match m req
        then match h req res with
             | (res', Ended) => res'
             | (res', Next) => walk st rest req res' options
             end
        else walk st rest req res
               (if method_eqb (req_method req) OPTIONS
                then appendMethods options (route_options m)
                else options)
      else walk st rest req res options
  end.

Definition dispatch (st : settings) (stack : app) (req : request) (res : response)
  : response :=
  walk st stack req res [].

(** [express.static(root)] over a directory given as the map from URL paths
    to file contents: a [GET] or [HEAD] of an existing file is answered here
    with the library's own caching header; everything else falls through. *)
Definition serveStatic (root : gmap string string) : handler :=
  fun req res =>
    match req_method req with
    | GET | HEAD =>
        match root !! req_path req with
        | Some content =>
            let res1 :=
              match getHeader "Cache-Control" res with
              | Some _ => res
              | None => setHeader "Cache-Control" "public, max-age=0" res
              end in
            ({| statusCode := 200;
                headers := headers res1;
                body := if method_eqb (req_method req) HEAD
                        then None else Some content |}, Ended)
        | None => (res, Next)
        end
    | _ => (res, Next)
    end.

End Express.

(** ** JSON string literals

    [JSON.stringify] on a string, the serialisation the GraphQL handler
    applies to the execution result, with a reader for the literal it writes. *)

Module Json.

Definition dq : string := String (ascii_of_nat 34) EmptyString.

Definition hex_digit (n : nat) : ascii :=
  match n with
  | 0 => "0" | 1 => "1" | 2 => "2" | 3 => "3" | 4 => "4" | 5 => "5"
  | 6 => "6" | 7 => "7" | 8 => "8" | 9 => "9" | 10 => "a" | 11 => "b"
  | 12 => "c" | 13 => "d" | 14 => "e" | _ => "f"
  end%char.

Definition escape (c : ascii) : string :=
  let n := nat_of_ascii c in
  if n =? 34 then "\" +:+ dq
  else if n =? 92 then "\\"
  else if n =? 8 then "\b"
  else if n =? 9 then "\t"
  else if n =? 10 then "\n"
  else if n =? 12 then "\f"
  else if n =? 13 then "\r"
  else if n <? 32 then
    "\u00" +:+ String (hex_digit (n / 16))
                      (String (hex_digit (n mod 16)) EmptyString)
  else String c EmptyString.

Fixpoint escape_all (s : string) : string :=
  match s with
  | EmptyString => EmptyString
  | String c s' => escape c +:+ escape_all s'
  end.

Definition stringify (s : string) : string := dq +:+ escape_all s +:+ dq.

Definition hex_value (c : ascii) : option nat :=
  let n := nat_of_ascii c in
  if (48 <=? n) && (n <=? 57) then Some (n - 48)
  else if (97 <=? n) && (n <=? 102) then Some (n - 87)
  else if (65 <=? n) && (n <=? 70) then Some (n - 55)
  else None.

(** The character a two-character escape stands for. *)
Definition unescape (c : ascii) : option ascii :=
  let n := nat_of_ascii c in
  if n =? 34 then Some c
  else if n =? 92 then Some c
  else if n =? 47 then Some c
  else if n =? 98 then Some (ascii_of_nat 8)
  else if n =? 116 then Some (ascii_of_nat 9)
  else if n =? 110 then Some (ascii_of_nat 10)
  else if n =? 102 then Some (ascii_of_nat 12)
  else if n =? 114 then Some (ascii_of_nat 13)
  else None.

Definition code4 (h1 h2 h3 h4 : ascii) : option nat :=
  match hex_value h1, hex_value h2, hex_value h3, hex_value h4 with
  | Some a, Some b, Some c, Some d => Some (((a * 16 + b) * 16 + c) * 16 + d)
  | _, _, _, _ => None
  end.

Definition push (c : ascii) (r : option (string * string))
  : option (string * string) :=
  match r with
  | Some (s, rest) => Some (String c s, rest)
  | None => None
  end.

(** Reads the characters of a literal up to its closing quote; returns the
    text they denote and what follows the literal.  Code points above 255
    have no place in a byte string and are refused. *)
Fixpoint read_chars (s : string) : option (string * string) :=
  match s with
  | EmptyString => None
  | String c rest =>
      let n := nat_of_ascii c in
      if n =? 34 then Some (EmptyString, rest)
      else if n =? 92 then
        match rest with
        | EmptyString => None
        | String e rest1 =>
            match unescape e with
            | Some d => push d (read_chars rest1)
            | None =>
                if nat_of_ascii e =? 117 then
                  match rest1 with
                  | String h1 (String h2 (String h3 (String h4 rest2))) =>
                      match code4 h1 h2 h3 h4 with
                      | Some v =>
                          if v <? 256
                          then push (ascii_of_nat v) (read_chars rest2)
                          else None
                      | None => None
                      end
                  | _ => None
                  end
                else None
            end
        end
      else if n <? 32 then None
      else push c (read_chars rest)
  end.

Definition read_string (s : string) : option (string * string) :=
  match s with
  | String c rest => if nat_of_ascii c =? 34 then read_chars rest else None
  | EmptyString => None
  end.

End Json.

(** ** The GraphQL endpoint

    Library model (graphql-http, graphql-js): what the handler built by
    [createHandler({ schema })] does with a request.  Reading the request
    (method, [Accept], parameters) and parsing and validating the document
    against [schema.graphql] stay inside the libraries and are taken as
    [operation_of]; the model follows the execution of the single field,
    where the resolver of this repository runs. *)

Module GraphqlHttp.
Import Http.

(** The executable schema: the type definitions fix the one query field,
    [makeExecutableSchema] attaches its resolver. *)
Record schema : Type := {
  Query_validateEmail : unit -> args -> JS.completion string
}.

(** The two media types the handler answers in, chosen from [Accept]. *)
Inductive media : Type := ApplicationJson | GraphqlResponseJson.

Definition content_type (m : media) : string :=
  match m with
  | ApplicationJson => "application/json; charset=utf-8"
  | GraphqlResponseJson => "application/graphql-response+json; charset=utf-8"
  end.

(** Status and headers of an answer of the handler: it sets a content type
    when it sends a payload, [Allow] on a 405, [Accept] on a 406. *)
Record init : Type := {
  status : nat;
  contentType : option media;
  allow : option string;
  accept : option string
}.

Inductive operation : Type :=
| FieldQuery (a : args) (accepted : media)
    (* the document is the query of the field [validateEmail] with these
       arguments, to be answered in this media type *)
| Settled (i : init) (payload : option string).
    (* the libraries answer alone: a request they reject, introspection *)

Record library : Type := {
  operation_of : request -> operation;
  (* the payload reporting an exception of the resolver *)
  field_error : string -> string
}.

(** The payload of a successful execution:
    [{"data":{"validateEmail":<message>}}]. *)
Definition data_payload (message : string) : string :=
  "{" +:+ Json.stringify "data" +:+ ":{" +:+ Json.stringify "validateEmail"
      +:+ ":" +:+ Json.stringify message +:+ "}}".

Fixpoint strip_prefix (prefix s : string) : option string :=
  match prefix, s with
  | EmptyString, _ => Some s
  | String a prefix', String b s' =>
      if Ascii.eqb a b then strip_prefix prefix' s' else None
  | String _ _, EmptyString => None
  end.

(** What a client reads out of such a payload: the string literal standing
    in the field, provided the payload ends right after it. *)
Definition read_data (payload : string) : option string :=
  match strip_prefix ("{" +:+ Json.stringify "data" +:+ ":{"
                          +:+ Json.stringify "validateEmail" +:+ ":") payload with
  | Some rest =>
      match Json.read_string rest with
      | Some (message, closing) =>
          if String.eqb closing "}}" then Some message else None
      | None => None
      end
  | None => None
  end.

(** The answer once the resolver has run: its message as data, or its
    exception as an error entry; status 200 either way. *)
Definition reply (lib : library) (accepted : media) (result : JS.completion string)
  : init * option string :=
  ({| status := 200; contentType := Some accepted;
      allow := None; accept := None |},
   Some match result with
        | JS.Return message => data_payload message
        | JS.Throw err => field_error lib err
        end).

Definition execute (lib : library) (s : schema) (a : args) (accepted : media)
  : init * option string :=
  reply lib accepted (Query_validateEmail s tt a).

Definition setOptional (name : string) (value : option string) (res : response)
  : response :=
  match value with
  | Some v => setHeader name v res
  | None => res
  end.

(** [res.writeHead(init.status, init.statusText, init.headers).end(body)]:
    the headers of the answer go over those already set, which stay. *)
Definition writeHead (i : init) (payload : option string) (res : response)
  : response :=
  let res1 :=
    setOptional "accept" (accept i)
      (setOptional "allow" (allow i)
         (setOptional "content-type" (content_type <$> contentType i) res)) in
  {| statusCode := status i; headers := headers res1; body := payload |}.

(** The Express adapter: the answer of the handler is written onto [res],
    which ends the response. *)
Definition createHandler (lib : library) (s : schema) : Express.handler :=
  fun req res =>
    let '(i, payload) :=
      match operation_of lib req with
      | FieldQuery a accepted => execute lib s a accepted
      | Settled i payload => (i, payload)
      end in
    (writeHead i payload res, Express.Ended).

End GraphqlHttp.

(** What the process gets from outside the repository. *)
Record environment : Type := {
  (* [require('validator').isEmail] *)
  validator_isEmail : checker;
  (* [express.static(path.join(__dirname, 'views'))] *)
  express_static : Express.handler;
  (* [express] itself *)
  express : Express.settings;
  (* [graphql-http] with [graphql-js] *)
  graphql : GraphqlHttp.library
}.

Definition with_checker (chk : checker) (env : environment) : environment :=
  {| validator_isEmail := chk;
     express_static := express_static env;
     express := express env;
     graphql := graphql env |}.

(** The page both entry points send for [/graphiql]: the text of the template
    literal, line by line. *)
Definition nl : string := String (ascii_of_nat 10) EmptyString.

Definition graphiqlPage : string :=
  let dq := Json.dq in
  String.concat nl [
    EmptyString;
    "      <!DOCTYPE html>";
    "      <html>";
    "        <head>";
    "          <title>GraphiQL</title>";
    "          <script src=" +:+ dq +:+ "../react.development.js" +:+ dq +:+ "></script>";
    "          <script src=" +:+ dq +:+ "../react-dom.development.js" +:+ dq +:+ "></script>";
    "          <script src=" +:+ dq +:+ "../graphiql.min.js" +:+ dq +:+ "></script>";
    "          <link rel=" +:+ dq +:+ "stylesheet" +:+ dq +:+ " href=" +:+ dq +:+ "../graphiql.min.css" +:+ dq +:+ " />";
    "        </head>";
    "        <body style=" +:+ dq +:+ "margin: 0;" +:+ dq +:+ ">";
    "          <div id=" +:+ dq +:+ "graphiql" +:+ dq +:+ " style=" +:+ dq +:+ "height: 100vh;" +:+ dq +:+ "></div>";
    "          <script>";
    "            const graphQLFetcher = (graphQLParams) => {";
    "              return fetch('/graphql', {";
    "                method: 'POST',";
    "                headers: { 'Content-Type': 'application/json' },";
    "                body: JSON.stringify(graphQLParams),";
    "              })";
    "              .then((response) => response.json())";
    "              .catch((error) => error);";
    "            };";
    EmptyString;
    "            ReactDOM.render(";
    "              React.createElement(GraphiQL, { fetcher: graphQLFetcher }),";
    "              document.getElementById('graphiql')";
    "            );";
    "          </script>";
    "        </body>";
    "      </html>";
    "    "
  ].

(** The mount point of the explorer in that page. *)
Definition mountPoint : string :=
  "<div id=" +:+ Json.dq +:+ "graphiql" +:+ Json.dq.

(** [String.prototype.includes] *)
Fixpoint includes (needle s : string) : bool :=
  JS.starts_with needle s
  || match s with
     | EmptyString => false
     | String _ s' => includes needle s'
     end.

(** ** The process heap

    The same libraries seen as JavaScript functions: each call runs against
    the heap of the process, which it may read and change, and so does every
    handler.  Nothing here makes a call leave the heap alone. *)

Module Process.
Import Http.

Section Heap.
Variable heap : Type.

Definition action (A : Type) : Type := heap -> heap * A.

Definition ret {A : Type} (a : A) : action A := fun h => (h, a).

Definition bind {A B : Type} (m : action A) (k : A -> action B) : action B :=
  fun h => let '(h1, a) := m h in k a h1.

Definition handler : Type :=
  request -> response -> action (response * Express.outcome).

Inductive layer : Type :=
| Use (mount : option string) (h : handler)
| Route (m : method) (path : string) (h : handler).

Definition use (h : handler) (a : list layer) : list layer := a ++ [Use None h].
Definition use_at (path : string) (h : handler) (a : list layer) : list layer :=
  a ++ [Use (Some path) h].
Definition get (path : string) (h : handler) (a : list layer) : list layer :=
  a ++ [Route GET path h].

(** The router of [Express.walk], its handlers run on the heap. *)
Fixpoint walk (st : Express.settings) (stack : list layer) (req : request)
         (res : response) (options : list string) : action response :=
  match stack with
  | [] =>
      ret (if method_eqb (req_method req) OPTIONS
              && negb (bool_decide (options = []))
           then Express.sendOptionsResponse st req options res
           else Express.notFound st req res)
  | Use mount h :: rest =>
      if match mount with
         | Some path => Express.mount_match path (req_path req)
         | None => true
         end
      then bind (h req res) (fun r =>
             match r with
             | (res', Express.Ended) => ret res'
             | (res', Express.Next) => walk st rest req res' options
             end)
      else walk st rest req res options
  | Route m path h :: rest =>
      if Express.route_match path (req_path req) then
        if Express.method_match m req
        then bind (h req res) (fun r =>
               match r with
               | (res', Express.Ended) => ret res'
               | (res', Express.Next) => walk st rest req res' options
               end)
        else walk st rest req res
               (if method_eqb (req_method req) OPTIONS
                then Express.appendMethods options (Express.route_options m)
                else options)
      else walk st rest req res options
  end.

Definition dispatch (st : Express.settings) (stack : list layer) (req : request)
           (res : response) : action response :=
  walk st stack req res [].

(** The libraries as the process calls them. *)
Record runtime : Type := {
  isEmail : string -> action (JS.completion bool);
  static : handler;
  operation_of : request -> action GraphqlHttp.operation
}.

(** [createHandler({ schema })] with a resolver that runs on the heap. *)
Definition createHandler (rt : runtime) (lib : GraphqlHttp.library)
           (resolver : unit -> args -> action (JS.completion string)) : handler :=
  fun req res =>
    bind (operation_of rt req) (fun op =>
      match op with
      | GraphqlHttp.FieldQuery a accepted =>
          bind (resolver tt a) (fun result =>
            let '(i, payload) := GraphqlHttp.reply lib accepted result in
            ret (GraphqlHttp.writeHead i payload res, Express.Ended))
      | GraphqlHttp.Settled i payload =>
          ret (GraphqlHttp.writeHead i payload res, Express.Ended)
      end).

(** A session: the requests are answered one after the other, each on the
    heap the one before left. *)
Fixpoint serve (respond : request -> action response) (reqs : list request)
  : action (list response) :=
  match reqs with
  | [] => ret []
  | req :: rest =>
      bind (respond req) (fun res =>
        bind (serve respond rest) (fun out => ret (res :: out)))
  end.

(** What runs in the process between two calls of the resolver: another
    call, or any other code, which may change the heap. *)
Inductive event : Type :=
| Call (a : args)
| Other (f : heap -> heap).

Fixpoint run (resolver : unit -> args -> action (JS.completion string))
         (evs : list event) : action (list (option (JS.completion string))) :=
  match evs with
  | [] => ret []
  | Call a :: rest =>
      bind (resolver tt a) (fun result =>
        bind (run resolver rest) (fun out => ret (Some result :: out)))
  | Other f :: rest =>
      fun h => let '(h1, out) := run resolver rest (f h) in (h1, None :: out)
  end.

End Heap.

Arguments ret {heap A} a.
Arguments bind {heap A B} m k.
Arguments Use {heap} mount h.
Arguments Route {heap} m path h.
Arguments Call {heap} a.
Arguments Other {heap} f.
Arguments isEmail {heap} r.
Arguments static {heap} r.
Arguments operation_of {heap} r.

End Process.

(** ** [src/server.js] *)

Module ServerJs.
Import Http.

Section Server.
Variable env : environment.

(** [validateEmail: (_, { email }) => validator.isEmail(email) ? ... : ...] *)
Definition validateEmail (_parent : unit) (a : args) : JS.completion string :=
  let! valid := validator_isEmail env (email a) in
  JS.Return (if valid : bool
             then "The email '" +:+ email a +:+ "' is valid."
             else "The email '" +:+ email a +:+ "' is invalid.").

(** [makeExecutableSchema({ typeDefs, resolvers })] *)
Definition schema : GraphqlHttp.schema :=
  {| GraphqlHttp.Query_validateEmail := validateEmail |}.

(** [const app = express(); app.use(express.static(...))] *)
Definition app0 : Express.app :=
  Express.use (express_static env) Express.express.

Definition setupGraphQLEndpoint (app : Express.app) : Express.app :=
  Express.use_at "/graphql" (GraphqlHttp.createHandler (graphql env) schema) app.

Definition graphiql : Express.handler :=
  fun req res => (Express.send (express env) req graphiqlPage res, Express.Ended).

Definition setupGraphiQL (app : Express.app) : Express.app :=
  Express.get "/graphiql" graphiql app.

(** The application once the module has run. *)
Definition app : Express.app := setupGraphiQL (setupGraphQLEndpoint app0).

Definition PORT : nat := 4000.

(** The answer of the server to one request. *)
Definition respond (req : request) : response :=
  Express.dispatch (express env) app req fresh.

(** *** The same module on the heap of the process *)

Variable heap : Type.
Variable rt : Process.runtime heap.

(** The resolver as a JavaScript function: it calls the checker, which runs
    on the heap, and builds its message from what the call gave. *)
Definition validateEmail_in (_parent : unit) (a : args)
  : Process.action heap (JS.completion string) :=
  Process.bind (Process.isEmail rt (email a)) (fun outcome =>
    Process.ret
      (let! valid := outcome in
       JS.Return (if valid : bool
                  then "The email '" +:+ email a +:+ "' is valid."
                  else "The email '" +:+ email a +:+ "' is invalid."))).

Definition graphiql_in : Process.handler heap :=
  fun req res =>
    Process.ret (Express.send (express env) req graphiqlPage res, Express.Ended).

Definition app_in : list (Process.layer heap) :=
  Process.get heap "/graphiql" graphiql_in
    (Process.use_at heap "/graphql"
       (Process.createHandler heap rt (graphql env) validateEmail_in)
       (Process.use heap (Process.static rt) [])).

Definition respond_in (req : request) : Process.action heap response :=
  Process.dispatch heap (express env) app_in req fresh.

End Server.
End ServerJs.

(** ** [src/unnamed/part_000] *)

Module Part000.
Import Http.

Section Server.
Variable env : environment.

Definition validateEmail (_parent : unit) (a : args) : JS.completion string :=
  let! valid := validator_isEmail env (email a) in
  JS.Return (if valid : bool
             then "The email '" +:+ email a +:+ "' is valid."
             else "The email '" +:+ email a +:+ "' is invalid.").

Definition schema : GraphqlHttp.schema :=
  {| GraphqlHttp.Query_validateEmail := validateEmail |}.

(** [function addCacheHeaders(req, res, next)] *)
Definition addCacheHeaders : Express.handler :=
  fun req res =>
    (setHeader "Cache-Control"
               "no-store, no-cache, must-revalidate, proxy-revalidate" res,
     Express.Next).

(** [app.use(express.static(...))], then [app.use(addCacheHeaders)]. *)
Definition app0 : Express.app :=
  Express.use addCacheHeaders
    (Express.use (express_static env) Express.express).

Definition setupGraphQLEndpoint (app : Express.app) : Express.app :=
  Express.use_at "/graphql" (GraphqlHttp.createHandler (graphql env) schema) app.

Definition graphiql : Express.handler :=
  fun req res => (Express.send (express env) req graphiqlPage res, Express.Ended).

Definition setupGraphiQL (app : Express.app) : Express.app :=
  Express.get "/graphiql" graphiql app.

Definition app : Express.app := setupGraphiQL (setupGraphQLEndpoint app0).

Definition PORT : nat := 4000.

Definition respond (req : request) : response :=
  Express.dispatch (express env) app req fresh.
End Server.
End Part000.

(** ** Environments to run the definitions *)

(** A checker that accepts the strings holding an [@]. *)
Fixpoint has_at (s : string) : bool :=
  match s with
  | EmptyString => false
  | String c s' => if Ascii.eqb c "@" then true else has_at s'
  end.

Definition at_checker : checker := fun s => JS.Return (has_at s).

(** An unpaired surrogate (U+D800 to U+DFFF) in the bytes of a string: the
    byte 237 followed by a byte from 160 to 191. *)
Fixpoint has_lone_surrogate (s : string) : bool :=
  match s with
  | String c ((String d _) as s') =>
      ((nat_of_ascii c =? 237)
       && (160 <=? nat_of_ascii d) && (nat_of_ascii d <=? 191))
      || has_lone_surrogate s'
  | _ => false
  end.

(** The unpaired surrogate U+D800. *)
Definition surrogate : string :=
  String (ascii_of_nat 237) (String (ascii_of_nat 160)
    (String (ascii_of_nat 128) EmptyString)).

(** A checker that throws where [validator.isEmail] does: its byte-length
    test hands the parts of the address to [encodeURI], which raises a
    [URIError] on an unpaired surrogate. *)
Definition uri_checker : checker := fun s =>
  if has_lone_surrogate s then JS.Throw "URIError: URI malformed"
  else JS.Return (has_at s).

(** An address whose local part is that surrogate. *)
Definition surrogate_address : string := surrogate +:+ "@example.com".

(** The assets the explorer page links, as the static directory. *)
Definition views : gmap string string :=
  <["/react.development.js" := "/* react */"]>
    (<["/react-dom.development.js" := "/* react-dom */"]>
       (<["/graphiql.min.js" := "/* graphiql */"]>
          (<["/graphiql.min.css" := ".graphiql-container{}"]> ∅))).

(** A stand-in for the GraphQL libraries: a [POST] carries the argument as
    its body and is answered in [application/json], anything else is
    refused. *)
Definition demo_library : GraphqlHttp.library :=
  {| GraphqlHttp.operation_of := fun req =>
       match Http.req_method req with
       | Http.POST =>
           GraphqlHttp.FieldQuery {| email := Http.req_body req |}
                                  GraphqlHttp.ApplicationJson
       | _ =>
           GraphqlHttp.Settled
             {| GraphqlHttp.status := 405; GraphqlHttp.contentType := None;
                GraphqlHttp.allow := Some "GET, POST";
                GraphqlHttp.accept := None |} None
       end;
     GraphqlHttp.field_error := fun err => "{errors:" +:+ err +:+ "}" |}.

(** Stand-ins for what Express computes with hashes, media types and
    dates. *)
Definition demo_settings : Express.settings :=
  {| Express.error_page := fun req => "Cannot find " +:+ Http.req_path req;
     Express.etag := fun text => "W/" +:+ pretty (String.length text);
     Express.with_utf8 := fun type => type;
     Express.date_le := fun _ _ => false |}.

Definition demo_env (chk : checker) : environment :=
  {| validator_isEmail := chk;
     express_static := Express.serveStatic views;
     express := demo_settings;
     graphql := demo_library |}.

(** The same environment with a file named [graphiql] in the static
    directory. *)
Definition shadowed_env (chk : checker) : environment :=
  {| validator_isEmail := chk;
     express_static :=
       Express.serveStatic (<["/graphiql" := "a file of the directory"]> views);
     express := demo_settings;
     graphql := demo_library |}.

Definition get_request (path : string) : Http.request :=
  {| Http.req_method := Http.GET; Http.req_path := path;
     Http.req_query := EmptyString; Http.req_headers := ∅;
     Http.req_body := EmptyString |}.

Definition post_request (path body : string) : Http.request :=
  {| Http.req_method := Http.POST; Http.req_path := path;
     Http.req_query := EmptyString; Http.req_headers := ∅;
     Http.req_body := body |}.

(** A conditional [GET]: the client holds some copy, whatever its tag. *)
Definition conditional_get (path : string) : Http.request :=
  {| Http.req_method := Http.GET; Http.req_path := path;
     Http.req_query := EmptyString;
     Http.req_headers := {[ "if-none-match" := "*" ]};
     Http.req_body := EmptyString |}.

Definition options_request (path : string) : Http.request :=
  {| Http.req_method := Http.OPTIONS; Http.req_path := path;
     Http.req_query := EmptyString; Http.req_headers := ∅;
     Http.req_body := EmptyString |}.

(** The libraries of an environment as a runtime that keeps no state: every
    call hands the heap back as it found it. *)
Definition stateless_runtime (heap : Type) (env : environment)
  : Process.runtime heap :=
  {| Process.isEmail := fun s => Process.ret (validator_isEmail env s);
     Process.static := fun req res => Process.ret (express_static env req res);
     Process.operation_of := fun req =>
       Process.ret (GraphqlHttp.operation_of (graphql env) req) |}.

(** ** Predicates used in the proofs *)

(** A handler lets a header pass: setting it before the handler runs or
    after comes to the same, and the handler leaves its value alone. *)
Definition passes_header (name value : string) (h : Express.handler) : Prop :=
  forall req res,
    h req (Http.setHeader name value res)
    = (Http.setHeader name value (h req res).1, (h req res).2)
    /\ Http.getHeader name (h req res).1 = Http.getHeader name res.

Definition layer_passes_header (name value : string) (l : Express.layer) : Prop :=
  match l with
  | Express.Use _ h => passes_header name value h
  | Express.Route _ _ h => passes_header name value h
  end.

(** A layer of the process does what a layer of the plain model does, and
    hands the heap back as it found it. *)
Definition layer_keeps_heap {heap : Type} (l_in : Process.layer heap)
           (l : Express.layer) : Prop :=
  match l_in, l with
  | Process.Use mount_in h_in, Express.Use mount h =>
      mount_in = mount /\ forall req res hp, h_in req res hp = (hp, h req res)
  | Process.Route m_in path_in h_in, Express.Route m path h =>
      m_in = m /\ path_in = path
      /\ forall req res hp, h_in req res hp = (hp, h req res)
  | _, _ => False
  end.

Example validateEmail_valid :
  ServerJs.validateEmail (demo_env at_checker) tt {| email := "a@b.com" |}
  = JS.Return "The email 'a@b.com' is valid.".
Proof. reflexivity. Qed.

Example validateEmail_invalid :
  ServerJs.validateEmail (demo_env at_checker) tt {| email := "not-an-email" |}
  = JS.Return "The email 'not-an-email' is invalid.".
Proof. reflexivity. Qed.

(** ** Facts about strings *)

Lemma append_cons (c : ascii) (a b : string) :
  String c a +:+ b = String c (a +:+ b).
Proof. reflexivity. Qed.

Lemma append_empty_l (a : string) : EmptyString +:+ a = a.
Proof. reflexivity. Qed.

Lemma append_empty_r (a : string) : a +:+ EmptyString = a.
Proof.
  induction a as [|c a IH]; [reflexivity|].
  rewrite append_cons, IH. reflexivity.
Qed.

Lemma append_assoc (a b c : string) : (a +:+ b) +:+ c = a +:+ (b +:+ c).
Proof.
  induction a as [|x a IH]; [reflexivity|].
  rewrite !append_cons, IH. reflexivity.
Qed.

Lemma rev_onto_append (s acc : string) :
  JS.rev_onto s acc = JS.reverse s +:+ acc.
Proof.
  unfold JS.reverse. revert acc.
  induction s as [|c s IH]; intros acc; [reflexivity|].
  cbn [JS.rev_onto]. rewrite IH, (IH (String c EmptyString)).
  rewrite append_assoc. reflexivity.
Qed.

Lemma reverse_cons (c : ascii) (s : string) :
  JS.reverse (String c s) = JS.reverse s +:+ String c EmptyString.
Proof. unfold JS.reverse at 1. cbn [JS.rev_onto]. apply rev_onto_append. Qed.

Lemma reverse_append (a b : string) :
  JS.reverse (a +:+ b) = JS.reverse b +:+ JS.reverse a.
Proof.
  induction a as [|c a IH].
  - rewrite append_empty_l. symmetry. apply append_empty_r.
  - rewrite append_cons, !reverse_cons, IH, append_assoc. reflexivity.
Qed.

Lemma reverse_involutive (s : string) : JS.reverse (JS.reverse s) = s.
Proof.
  induction s as [|c s IH]; [reflexivity|].
  rewrite reverse_cons, reverse_append, IH. reflexivity.
Qed.

Lemma starts_with_spec (p s : string) :
  JS.starts_with p s = true <-> exists k, s = p +:+ k.
Proof.
  revert s. induction p as [|a p IH]; intros s.
  - split; [intros _; exists s; reflexivity | reflexivity].
  - destruct s as [|b s]; cbn [JS.starts_with].
    + split; [discriminate | intros [k Hk]; discriminate].
    + destruct (Ascii.eqb_spec a b) as [->|Hne].
      * rewrite IH. split; intros [k Hk]; exists k.
        -- rewrite append_cons, Hk. reflexivity.
        -- rewrite append_cons in Hk. injection Hk as Hk. exact Hk.
      * split; [discriminate|]. intros [k Hk].
        rewrite append_cons in Hk. injection Hk as Hab _. congruence.
Qed.

(** [endsWith] holds exactly of the strings that are something followed by
    the suffix. *)
Lemma endsWith_spec (s suffix : string) :
  JS.endsWith s suffix = true <-> exists k, s = k +:+ suffix.
Proof.
  unfold JS.endsWith. rewrite starts_with_spec. split; intros [k Hk].
  - exists (JS.reverse k).
    rewrite <- (reverse_involutive s), Hk, reverse_append, reverse_involutive.
    reflexivity.
  - exists (JS.reverse k). rewrite Hk, reverse_append. reflexivity.
Qed.

(** The reversed message starts with the reversed closing words. *)
Lemma endsWith_append (a b suffix : string) :
  JS.endsWith (a +:+ b) suffix
  = JS.starts_with (JS.reverse suffix) (JS.reverse b +:+ JS.reverse a).
Proof. unfold JS.endsWith. rewrite reverse_append. reflexivity. Qed.

Lemma append_inv_l (a b c : string) : a +:+ b = a +:+ c -> b = c.
Proof.
  induction a as [|x a IH]; intros H; [exact H|].
  rewrite !append_cons in H. injection H as H. auto.
Qed.

Lemma append_inv_r (a b c : string) : a +:+ c = b +:+ c -> a = b.
Proof.
  intros H. apply (f_equal JS.reverse) in H.
  rewrite !reverse_append in H. apply append_inv_l in H.
  rewrite <- (reverse_involutive a), H. apply reverse_involutive.
Qed.

(** ** Facts about JSON literals *)

Lemma read_chars_escape (c : ascii) (s : string) :
  Json.read_chars (Json.escape c +:+ s) = Json.push c (Json.read_chars s).
Proof. destruct c as [[] [] [] [] [] [] [] []]; reflexivity. Qed.

Lemma read_chars_escape_all (s rest : string) :
  Json.read_chars (Json.escape_all s +:+ Json.dq +:+ rest) = Some (s, rest).
Proof.
  induction s as [|c s IH]; [reflexivity|].
  cbn [Json.escape_all]. rewrite append_assoc, read_chars_escape, IH.
  reflexivity.
Qed.

(** Reading back what [stringify] wrote gives the text, and stops at the
    end of the literal whatever the text holds. *)
Lemma read_stringify (s rest : string) :
  Json.read_string (Json.stringify s +:+ rest) = Some (s, rest).
Proof.
  unfold Json.stringify. rewrite !append_assoc.
  change (Json.dq +:+ ?x) with (String (ascii_of_nat 34) x).
  cbn [Json.read_string]. apply read_chars_escape_all.
Qed.

(** ** The resolver *)

(** The two entry points carry the same resolver. *)
Lemma resolvers_agree : Part000.validateEmail = ServerJs.validateEmail.
Proof. reflexivity. Qed.

Lemma validateEmail_checked (env : environment) (e : string) (accepted : bool) :
  validator_isEmail env e = JS.Return accepted ->
  ServerJs.validateEmail env tt {| email := e |}
  = JS.Return (if accepted
               then "The email '" +:+ e +:+ "' is valid."
               else "The email '" +:+ e +:+ "' is invalid.").
Proof.
  intros H. unfold ServerJs.validateEmail. cbn [email]. rewrite H. reflexivity.
Qed.

Lemma validateEmail_thrown (env : environment) (e err : string) :
  validator_isEmail env e = JS.Throw err ->
  ServerJs.validateEmail env tt {| email := e |} = JS.Throw err.
Proof.
  intros H. unfold ServerJs.validateEmail. cbn [email]. rewrite H. reflexivity.
Qed.

(** C1: on every string the resolver of either entry point returns exactly
    "The email '<e>' is valid." when the checker returns true on it, and
    exactly "The email '<e>' is invalid." when the checker returns false. *)
Theorem C1_validateEmail_message (env : environment) (e : string) (accepted : bool) :
  validator_isEmail env e = JS.Return accepted ->
  ServerJs.validateEmail env tt {| email := e |}
  = JS.Return (if accepted
               then "The email '" +:+ e +:+ "' is valid."
               else "The email '" +:+ e +:+ "' is invalid.")
  /\ Part000.validateEmail env tt {| email := e |}
     = JS.Return (if accepted
                  then "The email '" +:+ e +:+ "' is valid."
                  else "The email '" +:+ e +:+ "' is invalid.").
Proof.
  intros H. rewrite resolvers_agree. split; apply validateEmail_checked, H.
Qed.

Lemma C1_validateEmail_message_witness :
  validator_isEmail (demo_env at_checker) "a@b.com" = JS.Return true
  /\ ServerJs.validateEmail (demo_env at_checker) tt {| email := "a@b.com" |}
     = JS.Return "The email 'a@b.com' is valid."
  /\ validator_isEmail (demo_env at_checker) "not-an-email" = JS.Return false
  /\ Part000.validateEmail (demo_env at_checker) tt {| email := "not-an-email" |}
     = JS.Return "The email 'not-an-email' is invalid.".
Proof.
  split; [reflexivity|]. split.
  - exact (proj1 (C1_validateEmail_message (demo_env at_checker) "a@b.com" true
                    eq_refl)).
  - split; [reflexivity|].
    exact (proj2 (C1_validateEmail_message (demo_env at_checker) "not-an-email"
                    false eq_refl)).
Defined.

(** C3 (as stated, refuted): on an address holding an unpaired surrogate
    the checker throws, and the resolver of either entry point throws with
    it instead of returning the "invalid" message. *)
Lemma C3_checker_failure_not_caught :
  validator_isEmail (demo_env uri_checker) surrogate_address
  = JS.Throw "URIError: URI malformed"
  /\ ServerJs.validateEmail (demo_env uri_checker) tt
       {| email := surrogate_address |}
     = JS.Throw "URIError: URI malformed"
  /\ Part000.validateEmail (demo_env uri_checker) tt
       {| email := surrogate_address |}
     = JS.Throw "URIError: URI malformed"
  /\ ServerJs.validateEmail (demo_env uri_checker) tt
       {| email := surrogate_address |}
     <> JS.Return ("The email '" +:+ surrogate_address +:+ "' is invalid.").
Proof. repeat split; try reflexivity. discriminate. Qed.

Lemma verdict_endsWith (head : string) (accepted : bool) :
  JS.endsWith (head +:+ (if accepted then "' is valid." else "' is invalid."))
              "' is valid." = accepted
  /\ JS.endsWith (head +:+ (if accepted then "' is valid." else "' is invalid."))
                 "' is invalid." = negb accepted.
Proof. destruct accepted; split; rewrite endsWith_append; reflexivity. Qed.

(** The two messages for one input differ. *)
Lemma message_verdict (e : string) (b1 b2 : bool) :
  (if b1 then "The email '" +:+ e +:+ "' is valid."
   else "The email '" +:+ e +:+ "' is invalid.")
  = (if b2 then "The email '" +:+ e +:+ "' is valid."
     else "The email '" +:+ e +:+ "' is invalid.") ->
  b1 = b2.
Proof.
  intros H.
  pose proof (proj1 (verdict_endsWith ("The email '" +:+ e) b1)) as H1.
  pose proof (proj1 (verdict_endsWith ("The email '" +:+ e) b2)) as H2.
  rewrite append_assoc in H1, H2.
  destruct b1, b2; try reflexivity; rewrite H in H1; congruence.
Qed.

(** C3 (amended): the resolver has no handler of its own.  It raises on
    exactly the strings on which the checker raises, with the checker's
    error, and it returns the "valid" message exactly where the checker
    returns true and the "invalid" message exactly where it returns false;
    in either entry point.  So it is total when the checker is. *)
Theorem C3_validateEmail_raises_with_checker (env : environment) (e : string) :
  (forall err,
      ServerJs.validateEmail env tt {| email := e |} = JS.Throw err
      <-> validator_isEmail env e = JS.Throw err)
  /\ (forall accepted : bool,
         ServerJs.validateEmail env tt {| email := e |}
         = JS.Return (if accepted
                      then "The email '" +:+ e +:+ "' is valid."
                      else "The email '" +:+ e +:+ "' is invalid.")
         <-> validator_isEmail env e = JS.Return accepted)
  /\ (forall err,
         Part000.validateEmail env tt {| email := e |} = JS.Throw err
         <-> validator_isEmail env e = JS.Throw err)
  /\ (forall accepted : bool,
         Part000.validateEmail env tt {| email := e |}
         = JS.Return (if accepted
                      then "The email '" +:+ e +:+ "' is valid."
                      else "The email '" +:+ e +:+ "' is invalid.")
         <-> validator_isEmail env e = JS.Return accepted).
Proof.
  rewrite resolvers_agree.
  assert ((forall err,
              ServerJs.validateEmail env tt {| email := e |} = JS.Throw err
              <-> validator_isEmail env e = JS.Throw err)
          /\ (forall accepted : bool,
                 ServerJs.validateEmail env tt {| email := e |}
                 = JS.Return (if accepted
                              then "The email '" +:+ e +:+ "' is valid."
                              else "The email '" +:+ e +:+ "' is invalid.")
                 <-> validator_isEmail env e = JS.Return accepted)) as [Ht Hr].
  { destruct (validator_isEmail env e) as [b|err0] eqn:Hchk.
    - rewrite (validateEmail_checked env e b Hchk). split.
      + intros err. split; discriminate.
      + intros accepted. split; intros H.
        * injection H as H. apply message_verdict in H. congruence.
        * injection H as ->. reflexivity.
    - rewrite (validateEmail_thrown env e err0 Hchk). split.
      + intros err. split; intros Hx; injection Hx as ->; reflexivity.
      + intros accepted. split; discriminate. }
  repeat split; first [apply Ht | apply Hr].
Qed.

(** C9: the resolver of [src/server.js] and the resolver of
    [src/unnamed/part_000] return the same result on every input. *)
Theorem C9_resolvers_extensionally_equal (env : environment) (parent : unit) (a : args) :
  Part000.validateEmail env parent a = ServerJs.validateEmail env parent a.
Proof.
  unfold Part000.validateEmail, ServerJs.validateEmail.
  destruct (validator_isEmail env (email a)) as [[|]|err]; reflexivity.
Qed.

Lemma message_shape (env : environment) (e m : string) :
  ServerJs.validateEmail env tt {| email := e |} = JS.Return m ->
  exists accepted,
    validator_isEmail env e = JS.Return accepted
    /\ m = "The email '" +:+ e
           +:+ (if accepted : bool then "' is valid." else "' is invalid.").
Proof.
  intros H. destruct (validator_isEmail env e) as [b|err] eqn:Hchk.
  - rewrite (validateEmail_checked env e b Hchk) in H. injection H as <-.
    exists b. split; [reflexivity|]. destruct b; reflexivity.
  - rewrite (validateEmail_thrown env e err Hchk) in H. discriminate.
Qed.

(** C10: the verdict of the checker can be read off the message alone.  The
    message, the same from either entry point, ends with "' is valid." exactly when the checker accepted the
    input and with "' is invalid." exactly when it rejected it, whatever the
    input holds. *)
Theorem C10_verdict_recoverable (env : environment) (e m : string) :
  ServerJs.validateEmail env tt {| email := e |} = JS.Return m ->
  Part000.validateEmail env tt {| email := e |} = JS.Return m
  /\ (JS.endsWith m "' is valid." = true
      <-> validator_isEmail env e = JS.Return true)
  /\ (JS.endsWith m "' is invalid." = true
      <-> validator_isEmail env e = JS.Return false).
Proof.
  intros H. split; [rewrite resolvers_agree; exact H|].
  destruct (message_shape env e m H) as (b & Hchk & ->).
  rewrite <- append_assoc.
  destruct (verdict_endsWith ("The email '" +:+ e) b) as [-> ->].
  rewrite Hchk. destruct b; cbn [negb]; split; split; congruence.
Qed.

Lemma C10_verdict_recoverable_witness :
  ServerJs.validateEmail (demo_env at_checker) tt
    {| email := "a@b' is invalid." |}
  = JS.Return "The email 'a@b' is invalid.' is valid."
  /\ JS.endsWith "The email 'a@b' is invalid.' is valid." "' is valid." = true
  /\ JS.endsWith "The email 'a@b' is invalid.' is valid." "' is invalid." = false.
Proof.
  pose proof (C10_verdict_recoverable (demo_env at_checker)
                "a@b' is invalid." "The email 'a@b' is invalid.' is valid."
                eq_refl) as (_ & Hv & Hi).
  split; [reflexivity|]. split.
  - apply Hv. reflexivity.
  - apply not_true_is_false. intros Hends.
    apply Hi in Hends. discriminate Hends.
Defined.


(** ** Headers *)

Lemma getHeader_setHeader (name name' value : string) (res : Http.response) :
  Http.getHeader name' (Http.setHeader name value res)
  = if decide (Http.lower name = Http.lower name')
    then Some value else Http.getHeader name' res.
Proof. unfold Http.getHeader, Http.setHeader. cbn. apply lookup_insert. Qed.

Lemma getHeader_setHeader_ne (name name' value : string) (res : Http.response) :
  Http.lower name <> Http.lower name' ->
  Http.getHeader name' (Http.setHeader name value res) = Http.getHeader name' res.
Proof. intros H. rewrite getHeader_setHeader, decide_False by exact H. reflexivity. Qed.

Lemma getHeader_setHeader_eq (name value : string) (res : Http.response) :
  Http.getHeader name (Http.setHeader name value res) = Some value.
Proof. rewrite getHeader_setHeader, decide_True by reflexivity. reflexivity. Qed.

Lemma getHeader_removeHeader_ne (name name' : string) (res : Http.response) :
  Http.lower name <> Http.lower name' ->
  Http.getHeader name' (Http.removeHeader name res) = Http.getHeader name' res.
Proof.
  intros H. unfold Http.getHeader, Http.removeHeader. cbn.
  apply lookup_delete_ne, H.
Qed.

Lemma getHeader_removeHeader_eq (name : string) (res : Http.response) :
  Http.getHeader name (Http.removeHeader name res) = None.
Proof. unfold Http.getHeader, Http.removeHeader. cbn. apply lookup_delete_eq. Qed.

Lemma getHeader_setStatus (name : string) (code : nat) (res : Http.response) :
  Http.getHeader name (Http.setStatus code res) = Http.getHeader name res.
Proof. reflexivity. Qed.

Lemma setHeader_swap (n1 v1 n2 v2 : string) (res : Http.response) :
  Http.lower n1 <> Http.lower n2 ->
  Http.setHeader n1 v1 (Http.setHeader n2 v2 res)
  = Http.setHeader n2 v2 (Http.setHeader n1 v1 res).
Proof.
  intros H. unfold Http.setHeader. cbn. f_equal. apply insert_insert_ne, H.
Qed.

Lemma removeHeader_setHeader (n1 n2 v2 : string) (res : Http.response) :
  Http.lower n1 <> Http.lower n2 ->
  Http.removeHeader n1 (Http.setHeader n2 v2 res)
  = Http.setHeader n2 v2 (Http.removeHeader n1 res).
Proof.
  intros H. unfold Http.setHeader, Http.removeHeader. cbn. f_equal.
  apply delete_insert_ne. congruence.
Qed.

Lemma forbids_caching_header (res : Http.response) :
  Http.getHeader "Cache-Control" res
  = Some "no-store, no-cache, must-revalidate, proxy-revalidate" ->
  Http.forbids_caching res = true.
Proof. intros H. unfold Http.forbids_caching. rewrite H. reflexivity. Qed.

(** Two header names that differ once in lower case. *)
Ltac names_differ :=
  let H := fresh in intros H; vm_compute in H; discriminate H.

(** ** What the library handlers do to a header they do not name

    [send], the 404, the automatic [OPTIONS] answer and the endpoint handler
    set and remove a fixed list of headers.  A header outside that list, set
    before they run, is set after they ran, and setting it before or after
    comes to the same response. *)

Section OtherHeader.
Variable st : Express.settings.
Variables name value : string.
Hypothesis not_type : Http.lower name <> "content-type".
Hypothesis not_length : Http.lower name <> "content-length".
Hypothesis not_etag : Http.lower name <> "etag".
Hypothesis not_modified : Http.lower name <> "last-modified".
Hypothesis not_transfer : Http.lower name <> "transfer-encoding".
Hypothesis not_allow : Http.lower name <> "allow".
Hypothesis not_accept : Http.lower name <> "accept".
Hypothesis not_encoding : Http.lower name <> "content-encoding".
Hypothesis not_language : Http.lower name <> "content-language".
Hypothesis not_range : Http.lower name <> "content-range".
Hypothesis not_policy : Http.lower name <> "content-security-policy".
Hypothesis not_sniff : Http.lower name <> "x-content-type-options".

Local Abbreviation put := (Http.setHeader name value).

Local Ltac other :=
  first [ exact not_type | exact not_length | exact not_etag
        | exact not_modified | exact not_transfer | exact not_allow
        | exact not_accept | exact not_encoding | exact not_language
        | exact not_range | exact not_policy | exact not_sniff ].

Local Ltac side :=
  let H := fresh in
  intros H; first [ symmetry in H; revert H; other | revert H; other ].

Lemma get_set_other (n : string) (res : Http.response) :
  Http.lower name <> Http.lower n ->
  Http.getHeader n (put res) = Http.getHeader n res.
Proof. apply getHeader_setHeader_ne. Qed.

Lemma req_fresh_set (req : Http.request) (res : Http.response) :
  Express.req_fresh st req (put res) = Express.req_fresh st req res.
Proof.
  unfold Express.req_fresh.
  rewrite !get_set_other by other. reflexivity.
Qed.

Lemma if_set (b : bool) (x y : Http.response) :
  (if b then put x else put y) = put (if b then x else y).
Proof. destruct b; reflexivity. Qed.

Lemma send_set (req : Http.request) (text : string) (res : Http.response) :
  Express.send st req text (put res) = put (Express.send st req text res).
Proof.
  unfold Express.send.
  rewrite (get_set_other "Content-Type") by other.
  set (res1 := match Http.getHeader "Content-Type" res with
               | Some (String c type) =>
                   Http.setHeader "Content-Type"
                     (Express.with_utf8 st (String c type)) res
               | _ => Http.setHeader "Content-Type" "text/html; charset=utf-8" res
               end).
  assert (match Http.getHeader "Content-Type" res with
          | Some (String c type) =>
              Http.setHeader "Content-Type"
                (Express.with_utf8 st (String c type)) (put res)
          | _ => Http.setHeader "Content-Type" "text/html; charset=utf-8" (put res)
          end = put res1) as ->.
  { unfold res1. destruct (Http.getHeader "Content-Type" res) as [[|c t]|];
      apply setHeader_swap; side. }
  cbv zeta.
  rewrite (setHeader_swap "Content-Length") by side.
  set (res2 := Http.setHeader "Content-Length" _ res1).
  rewrite (get_set_other "ETag") by other.
  assert ((if Http.truthy (Http.getHeader "ETag" res2) then put res2
           else match Express.etag st text with
                | EmptyString => put res2
                | String c tag => Http.setHeader "ETag" (String c tag) (put res2)
                end)
          = put (if Http.truthy (Http.getHeader "ETag" res2) then res2
                 else match Express.etag st text with
                      | EmptyString => res2
                      | String c tag => Http.setHeader "ETag" (String c tag) res2
                      end)) as ->.
  { destruct (Http.truthy _); [reflexivity|].
    destruct (Express.etag st text); [reflexivity|].
    apply setHeader_swap; side. }
  set (res3 := if Http.truthy (Http.getHeader "ETag" res2) then res2 else _).
  rewrite req_fresh_set.
  change (Http.setStatus 304 (put res3)) with (put (Http.setStatus 304 res3)).
  rewrite if_set.
  set (res4 := if Express.req_fresh st req res3 then _ else res3).
  change (Http.statusCode (put res4)) with (Http.statusCode res4).
  rewrite !(removeHeader_setHeader _ name) by side.
  rewrite if_set.
  set (res5 := if _ || _ then _ else res4).
  change (Http.statusCode (put res5)) with (Http.statusCode res5).
  rewrite (setHeader_swap "Content-Length") by side.
  rewrite !(removeHeader_setHeader _ name) by side.
  rewrite if_set. reflexivity.
Qed.



Lemma get_send_other (req : Http.request) (text : string) (res : Http.response) :
  Http.getHeader name (Express.send st req text res) = Http.getHeader name res.
Proof.
  unfold Express.send. cbv zeta.
  match goal with
  | |- Http.getHeader name
         {| Http.statusCode := _; Http.headers := Http.headers ?r;
            Http.body := _ |} = _ =>
      change (Http.getHeader name r = Http.getHeader name res)
  end.
  repeat match goal with
         | |- context [if ?b then _ else _] => destruct b
         end;
    repeat first [ rewrite getHeader_removeHeader_ne by side
                 | rewrite getHeader_setHeader_ne by side
                 | rewrite getHeader_setStatus ];
    try (destruct (Express.etag st text);
         repeat first [ rewrite getHeader_removeHeader_ne by side
                      | rewrite getHeader_setHeader_ne by side
                      | rewrite getHeader_setStatus ]);
    destruct (Http.getHeader "Content-Type" res) as [[|c t]|];
    rewrite getHeader_setHeader_ne by side; reflexivity.
Qed.

Lemma notFound_set (req : Http.request) (res : Http.response) :
  Express.notFound st req (put res) = put (Express.notFound st req res).
Proof.
  unfold Express.notFound. cbv zeta.
  rewrite !(removeHeader_setHeader _ name) by side.
  rewrite (setHeader_swap "Content-Security-Policy") by side.
  rewrite (setHeader_swap "X-Content-Type-Options") by side.
  rewrite (setHeader_swap "Content-Type") by side.
  rewrite (setHeader_swap "Content-Length") by side.
  reflexivity.
Qed.

Lemma get_notFound_other (req : Http.request) (res : Http.response) :
  Http.getHeader name (Express.notFound st req res) = Http.getHeader name res.
Proof.
  unfold Express.notFound. cbv zeta.
  match goal with
  | |- Http.getHeader name
         {| Http.statusCode := _; Http.headers := Http.headers ?r;
            Http.body := _ |} = _ =>
      change (Http.getHeader name r = Http.getHeader name res)
  end.
  repeat first [ rewrite getHeader_removeHeader_ne by side
               | rewrite getHeader_setHeader_ne by side ].
  reflexivity.
Qed.

Lemma sendOptionsResponse_set (req : Http.request) (options : list string)
      (res : Http.response) :
  Express.sendOptionsResponse st req options (put res)
  = put (Express.sendOptionsResponse st req options res).
Proof.
  unfold Express.sendOptionsResponse. cbv zeta.
  rewrite (setHeader_swap "Allow") by side. apply send_set.
Qed.

Lemma get_sendOptionsResponse_other (req : Http.request) (options : list string)
      (res : Http.response) :
  Http.getHeader name (Express.sendOptionsResponse st req options res)
  = Http.getHeader name res.
Proof.
  unfold Express.sendOptionsResponse. cbv zeta.
  rewrite get_send_other. apply getHeader_setHeader_ne. side.
Qed.

Lemma writeHead_set (i : GraphqlHttp.init) (payload : option string)
      (res : Http.response) :
  GraphqlHttp.writeHead i payload (put res)
  = put (GraphqlHttp.writeHead i payload res).
Proof.
  unfold GraphqlHttp.writeHead, GraphqlHttp.setOptional. cbv zeta.
  destruct (GraphqlHttp.contentType i), (GraphqlHttp.allow i),
    (GraphqlHttp.accept i); cbn [fmap option_fmap option_map];
    rewrite ?(setHeader_swap "content-type") by side;
    rewrite ?(setHeader_swap "allow") by side;
    rewrite ?(setHeader_swap "accept") by side; reflexivity.
Qed.

Lemma get_writeHead_other (i : GraphqlHttp.init) (payload : option string)
      (res : Http.response) :
  Http.getHeader name (GraphqlHttp.writeHead i payload res)
  = Http.getHeader name res.
Proof.
  unfold GraphqlHttp.writeHead, GraphqlHttp.setOptional. cbv zeta.
  match goal with
  | |- Http.getHeader name
         {| Http.statusCode := _; Http.headers := Http.headers ?r;
            Http.body := _ |} = _ =>
      change (Http.getHeader name r = Http.getHeader name res)
  end.
  destruct (GraphqlHttp.contentType i), (GraphqlHttp.allow i),
    (GraphqlHttp.accept i); cbn [fmap option_fmap option_map];
    rewrite ?getHeader_setHeader_ne by side; reflexivity.
Qed.

Lemma createHandler_passes (lib : GraphqlHttp.library) (s : GraphqlHttp.schema) :
  passes_header name value (GraphqlHttp.createHandler lib s).
Proof.
  intros req res. unfold GraphqlHttp.createHandler.
  destruct (match GraphqlHttp.operation_of lib req with
            | GraphqlHttp.FieldQuery a accepted =>
                GraphqlHttp.execute lib s a accepted
            | GraphqlHttp.Settled i payload => (i, payload)
            end) as [i payload].
  cbn [fst snd]. rewrite writeHead_set, get_writeHead_other.
  split; reflexivity.
Qed.

Lemma send_passes (text : string) :
  passes_header name value
    (fun req res => (Express.send st req text res, Express.Ended)).
Proof.
  intros req res. cbn [fst snd]. rewrite send_set, get_send_other.
  split; reflexivity.
Qed.

Lemma walk_passes (stack : Express.app) :
  Forall (layer_passes_header name value) stack ->
  forall req res options,
    Express.walk st stack req (put res) options
    = put (Express.walk st stack req res options)
    /\ Http.getHeader name (Express.walk st stack req res options)
       = Http.getHeader name res.
Proof.
  induction 1 as [|l stack Hl _ IH]; intros req res options.
  - cbn [Express.walk].
    destruct (_ && _).
    + rewrite sendOptionsResponse_set, get_sendOptionsResponse_other.
      split; reflexivity.
    + rewrite notFound_set, get_notFound_other. split; reflexivity.
  - destruct l as [mount h|m path h]; cbn [Express.walk];
      cbn [layer_passes_header] in Hl.
    + destruct (match mount with
                | Some path => Express.mount_match path (Http.req_path req)
                | None => true
                end); [|apply IH].
      destruct (Hl req res) as [-> Hget].
      destruct (h req res) as [res' [|]]; cbn [fst snd] in *.
      * destruct (IH req res' options) as [-> ->]. split; [reflexivity|exact Hget].
      * split; [reflexivity|exact Hget].
    + destruct (Express.route_match path (Http.req_path req)); [|apply IH].
      destruct (Express.method_match m req); [|apply IH].
      destruct (Hl req res) as [-> Hget].
      destruct (h req res) as [res' [|]]; cbn [fst snd] in *.
      * destruct (IH req res' options) as [-> ->]. split; [reflexivity|exact Hget].
      * split; [reflexivity|exact Hget].
Qed.

End OtherHeader.

(** ** The server *)

Lemma ServerJs_app_layers (env : environment) :
  ServerJs.app env
  = [ Express.Use None (express_static env);
      Express.Use (Some "/graphql")
        (GraphqlHttp.createHandler (graphql env) (ServerJs.schema env));
      Express.Route Http.GET "/graphiql" (ServerJs.graphiql env) ].
Proof. reflexivity. Qed.

Lemma Part000_app_layers (env : environment) :
  Part000.app env
  = [ Express.Use None (express_static env);
      Express.Use None Part000.addCacheHeaders;
      Express.Use (Some "/graphql")
        (GraphqlHttp.createHandler (graphql env) (ServerJs.schema env));
      Express.Route Http.GET "/graphiql" (ServerJs.graphiql env) ].
Proof. reflexivity. Qed.

(** The handler of the endpoint ends every response. *)
Lemma createHandler_ends (lib : GraphqlHttp.library) (s : GraphqlHttp.schema)
      (req : Http.request) (res : Http.response) :
  (GraphqlHttp.createHandler lib s req res).2 = Express.Ended.
Proof.
  unfold GraphqlHttp.createHandler.
  destruct (match GraphqlHttp.operation_of lib req with
            | GraphqlHttp.FieldQuery a accepted =>
                GraphqlHttp.execute lib s a accepted
            | GraphqlHttp.Settled i payload => (i, payload)
            end). reflexivity.
Qed.

(** The layers both entry points register after the static layer (and, in
    [part_000], after the header middleware), walked from a response. *)
Lemma routes_pass_cache_control (env : environment) :
  Forall (layer_passes_header "Cache-Control"
            "no-store, no-cache, must-revalidate, proxy-revalidate")
    [ Express.Use (Some "/graphql")
        (GraphqlHttp.createHandler (graphql env) (ServerJs.schema env));
      Express.Route Http.GET "/graphiql" (ServerJs.graphiql env) ].
Proof.
  constructor; [|constructor; [|constructor]].
  - apply createHandler_passes; names_differ.
  - apply (send_passes (express env)); names_differ.
Qed.

Lemma walk_use (st : Express.settings) (h : Express.handler) (rest : Express.app)
      (req : Http.request) (res : Http.response) (options : list string) :
  Express.walk st (Express.Use None h :: rest) req res options
  = match h req res with
    | (res', Express.Ended) => res'
    | (res', Express.Next) => Express.walk st rest req res' options
    end.
Proof. reflexivity. Qed.

Lemma ServerJs_past_static (env : environment) (req : Http.request)
      (res0 : Http.response) :
  express_static env req Http.fresh = (res0, Express.Next) ->
  ServerJs.respond env req
  = Express.walk (express env)
      [ Express.Use (Some "/graphql")
          (GraphqlHttp.createHandler (graphql env) (ServerJs.schema env));
        Express.Route Http.GET "/graphiql" (ServerJs.graphiql env) ]
      req res0 [].
Proof.
  intros H. unfold ServerJs.respond, Express.dispatch.
  rewrite ServerJs_app_layers, walk_use, H. reflexivity.
Qed.

Lemma Part000_past_static (env : environment) (req : Http.request)
      (res0 : Http.response) :
  express_static env req Http.fresh = (res0, Express.Next) ->
  Part000.respond env req
  = Http.setHeader "Cache-Control"
      "no-store, no-cache, must-revalidate, proxy-revalidate"
      (ServerJs.respond env req).
Proof.
  intros H. rewrite (ServerJs_past_static env req res0 H).
  unfold Part000.respond, Express.dispatch.
  rewrite Part000_app_layers, walk_use, H, walk_use.
  unfold Part000.addCacheHeaders. cbv beta iota.
  apply walk_passes; [names_differ ..|apply routes_pass_cache_control].
Qed.

(** A file the static layer serves is answered before any later layer
    runs: the response is the one the static layer wrote. *)
Lemma Part000_static_answer (env : environment) (req : Http.request)
      (res : Http.response) :
  express_static env req Http.fresh = (res, Express.Ended) ->
  Part000.respond env req = res.
Proof.
  intros H. unfold Part000.respond, Express.dispatch.
  rewrite Part000_app_layers, walk_use, H. reflexivity.
Qed.

(** Past the static layer every response of [part_000] forbids caching. *)
Lemma Part000_forbids_caching (env : environment) (req : Http.request) :
  express_static env req Http.fresh = (Http.fresh, Express.Next) ->
  Http.forbids_caching (Part000.respond env req) = true.
Proof.
  intros H. rewrite (Part000_past_static env req _ H).
  apply forbids_caching_header, getHeader_setHeader_eq.
Qed.

(** C2 (the code at the failing inputs): [part_000] registers its header
    middleware after the static layer, so a file of the static directory goes
    out with the caching header of the static layer; [server.js] has no such
    middleware, so its explorer page goes out with no [Cache-Control] header.
    The other responses of [part_000] do carry the four directives. *)
Theorem C2_responses_that_may_be_cached :
  Http.getHeader "Cache-Control"
    (Part000.respond (demo_env at_checker) (get_request "/graphiql.min.js"))
  = Some "public, max-age=0"
  /\ Http.forbids_caching
       (Part000.respond (demo_env at_checker) (get_request "/graphiql.min.js"))
     = false
  /\ Http.getHeader "Cache-Control"
       (ServerJs.respond (demo_env at_checker) (get_request "/graphiql"))
     = None
  /\ Http.forbids_caching
       (Part000.respond (demo_env at_checker) (get_request "/graphiql"))
     = true
  /\ Http.forbids_caching
       (Part000.respond (demo_env at_checker) (post_request "/graphql" "a@b.com"))
     = true.
Proof. repeat split; vm_compute; reflexivity. Qed.

(** X1: [addCacheHeaders] always hands over to the next layer.  It replaces
    whatever [Cache-Control] value the response had by the four directives
    (read back under any capitalisation of the name), leaves the status, the
    body and every other header alone, and running it again changes
    nothing. *)
Theorem X1_addCacheHeaders_frame (req req' : Http.request) (res : Http.response) :
  (Part000.addCacheHeaders req res).2 = Express.Next
  /\ Http.statusCode (Part000.addCacheHeaders req res).1 = Http.statusCode res
  /\ Http.body (Part000.addCacheHeaders req res).1 = Http.body res
  /\ (forall name,
         Http.lower name = "cache-control" ->
         Http.getHeader name (Part000.addCacheHeaders req res).1
         = Some "no-store, no-cache, must-revalidate, proxy-revalidate")
  /\ (forall name,
         Http.lower name <> "cache-control" ->
         Http.getHeader name (Part000.addCacheHeaders req res).1
         = Http.getHeader name res)
  /\ Http.forbids_caching (Part000.addCacheHeaders req res).1 = true
  /\ Part000.addCacheHeaders req' (Part000.addCacheHeaders req res).1
     = Part000.addCacheHeaders req res.
Proof.
  unfold Part000.addCacheHeaders. cbn [fst snd].
  repeat split; try reflexivity.
  - intros name Hname. rewrite getHeader_setHeader.
    change (Http.lower "Cache-Control") with "cache-control".
    rewrite decide_True by (symmetry; exact Hname). reflexivity.
  - intros name Hname. rewrite getHeader_setHeader.
    change (Http.lower "Cache-Control") with "cache-control".
    rewrite decide_False by (intros Heq; apply Hname; symmetry; exact Heq).
    reflexivity.
  - apply forbids_caching_header. rewrite getHeader_setHeader.
    rewrite decide_True by reflexivity. reflexivity.
  - unfold Http.setHeader. cbn. rewrite insert_insert_eq. reflexivity.
Qed.

Lemma X1_addCacheHeaders_frame_witness :
  let res := Http.setHeader "ETag" "W/abc"
               (Http.setHeader "cache-control" "public, max-age=0" Http.fresh) in
  let req := get_request "/anything" in
  Http.getHeader "CACHE-CONTROL" (Part000.addCacheHeaders req res).1
  = Some "no-store, no-cache, must-revalidate, proxy-revalidate"
  /\ Http.getHeader "etag" (Part000.addCacheHeaders req res).1 = Some "W/abc".
Proof.
  intros res req.
  pose proof (X1_addCacheHeaders_frame req req res)
    as (_ & _ & _ & Hset & Hframe & _ & _).
  split.
  - apply Hset. reflexivity.
  - rewrite Hframe; [reflexivity | discriminate].
Defined.

(** ** The order of the layers *)

(** X2: in [part_000], whatever the static layer left on the response when
    it passed the request on, the answer carries exactly the four directives
    in [Cache-Control]: on the endpoint, on the explorer page and on the 404
    page alike. *)
Theorem X2_part000_past_static_no_store (env : environment) (req : Http.request)
        (res0 : Http.response) :
  express_static env req Http.fresh = (res0, Express.Next) ->
  Http.getHeader "Cache-Control" (Part000.respond env req)
  = Some "no-store, no-cache, must-revalidate, proxy-revalidate"
  /\ Http.forbids_caching (Part000.respond env req) = true.
Proof.
  intros H. rewrite (Part000_past_static env req res0 H).
  assert (Http.getHeader "Cache-Control"
            (Http.setHeader "Cache-Control"
               "no-store, no-cache, must-revalidate, proxy-revalidate"
               (ServerJs.respond env req))
          = Some "no-store, no-cache, must-revalidate, proxy-revalidate") as Hh
      by apply getHeader_setHeader_eq.
  split; [exact Hh | apply forbids_caching_header, Hh].
Qed.

Lemma X2_part000_past_static_no_store_witness :
  Http.forbids_caching
    (Part000.respond (demo_env at_checker) (post_request "/no/such/page" "x"))
  = true.
Proof.
  exact (proj2 (X2_part000_past_static_no_store (demo_env at_checker)
                  (post_request "/no/such/page" "x") Http.fresh eq_refl)).
Defined.

(** X3: a request the static layer answers gets, from either entry point,
    exactly the response the static layer wrote.  No later layer runs: not
    the header middleware of [part_000], not the endpoint, not the explorer
    route, which a file of the same name would shadow. *)
Theorem X3_static_answer_is_final (env : environment) (req : Http.request)
        (res : Http.response) :
  express_static env req Http.fresh = (res, Express.Ended) ->
  ServerJs.respond env req = res /\ Part000.respond env req = res.
Proof.
  intros H. unfold ServerJs.respond, Part000.respond, Express.dispatch.
  rewrite ServerJs_app_layers, Part000_app_layers, !walk_use, H.
  split; reflexivity.
Qed.

Lemma X3_static_answer_is_final_witness :
  Http.body (ServerJs.respond (demo_env at_checker) (get_request "/graphiql.min.css"))
  = Some ".graphiql-container{}"
  /\ Http.getHeader "Cache-Control"
       (Part000.respond (demo_env at_checker) (get_request "/graphiql.min.css"))
     = Some "public, max-age=0".
Proof.
  pose proof (X3_static_answer_is_final (demo_env at_checker)
                (get_request "/graphiql.min.css") _ eq_refl) as [Hs Hp].
  rewrite Hs, Hp. split; reflexivity.
Defined.

(** X4: the two entry points differ in the [Cache-Control] header and in
    nothing else.  On every request the response of [part_000] is the
    response of [server.js], either as it is (the static layer answered) or
    with [Cache-Control] set to the four directives. *)
Theorem X4_part000_is_serverjs_with_header (env : environment) (req : Http.request) :
  Part000.respond env req = ServerJs.respond env req
  \/ Part000.respond env req
     = Http.setHeader "Cache-Control"
         "no-store, no-cache, must-revalidate, proxy-revalidate"
         (ServerJs.respond env req).
Proof.
  destruct (express_static env req Http.fresh) as [res0 [|]] eqn:H.
  - right. apply (Part000_past_static env req res0 H).
  - left. rewrite (Part000_static_answer env req res0 H).
    unfold ServerJs.respond, Express.dispatch.
    rewrite ServerJs_app_layers, walk_use, H. reflexivity.
Qed.

(** ** The routes *)

(** No path is both under the mount point of the endpoint and on the route
    of the explorer. *)
Lemma routes_disjoint (url : string) :
  Express.route_match "/graphiql" url = true ->
  Express.mount_match "/graphql" url = false.
Proof.
  unfold Express.route_match, Express.mount_match. cbv zeta.
  intros H. apply orb_true_iff in H.
  destruct H as [H|H]; apply String.eqb_eq in H; rewrite H; reflexivity.
Qed.

(** X8: the two set-up calls commute.  Had [setupGraphiQL()] run before
    [setupGraphQLEndpoint()], every request would get the same response, as
    no path belongs to both routes; in either entry point. *)
Theorem X8_setup_calls_commute (env : environment) (req : Http.request) :
  Express.dispatch (express env)
    (ServerJs.setupGraphQLEndpoint env
       (ServerJs.setupGraphiQL env (ServerJs.app0 env)))
    req Http.fresh
  = ServerJs.respond env req
  /\ Express.dispatch (express env)
       (Part000.setupGraphQLEndpoint env
          (Part000.setupGraphiQL env (Part000.app0 env)))
       req Http.fresh
     = Part000.respond env req.
Proof.
  unfold ServerJs.respond, Part000.respond, Express.dispatch.
  rewrite ServerJs_app_layers, Part000_app_layers.
  unfold ServerJs.setupGraphQLEndpoint, ServerJs.setupGraphiQL, ServerJs.app0,
    Part000.setupGraphQLEndpoint, Part000.setupGraphiQL, Part000.app0,
    Express.use_at, Express.get, Express.use, Express.express.
  cbn [app]. rewrite !walk_use.
  destruct (express_static env req Http.fresh) as [res0 [|]];
    [|split; reflexivity].
  unfold Part000.addCacheHeaders. cbv beta iota.
  assert (forall res,
             Express.walk (express env)
               [ Express.Route Http.GET "/graphiql" (ServerJs.graphiql env);
                 Express.Use (Some "/graphql")
                   (GraphqlHttp.createHandler (graphql env) (ServerJs.schema env)) ]
               req res []
             = Express.walk (express env)
                 [ Express.Use (Some "/graphql")
                     (GraphqlHttp.createHandler (graphql env) (ServerJs.schema env));
                   Express.Route Http.GET "/graphiql" (ServerJs.graphiql env) ]
                 req res []) as Hswap.
  { intros res. cbn [Express.walk].
    destruct (Express.route_match "/graphiql" (Http.req_path req)) eqn:Hroute.
    - rewrite (routes_disjoint _ Hroute). reflexivity.
    - destruct (Express.mount_match "/graphql" (Http.req_path req));
        [|reflexivity].
      pose proof (createHandler_ends (graphql env) (ServerJs.schema env) req res)
        as Hend.
      destruct (GraphqlHttp.createHandler (graphql env) (ServerJs.schema env)
                  req res) as [res' o].
      cbn [snd] in Hend. subst o. reflexivity. }
  split; apply Hswap.
Qed.

(** ** Reading the message back *)

(** X9: the message determines the argument and the verdict.  If two calls
    of the resolver, under any two checkers, return the same message, then
    they were given the same string and the checkers gave the same verdict:
    no two inputs share a message, and no message is both a "valid" and an
    "invalid" one. *)
Theorem X9_message_determines_input (env1 env2 : environment) (e1 e2 m : string) :
  ServerJs.validateEmail env1 tt {| email := e1 |} = JS.Return m ->
  ServerJs.validateEmail env2 tt {| email := e2 |} = JS.Return m ->
  e1 = e2 /\ validator_isEmail env1 e1 = validator_isEmail env2 e2.
Proof.
  intros H1 H2.
  destruct (message_shape env1 e1 m H1) as (b1 & Hc1 & Hm1).
  destruct (message_shape env2 e2 m H2) as (b2 & Hc2 & Hm2).
  assert (b1 = b2) as Hb.
  { pose proof (proj1 (verdict_endsWith ("The email '" +:+ e1) b1)) as Hv1.
    pose proof (proj1 (verdict_endsWith ("The email '" +:+ e2) b2)) as Hv2.
    rewrite append_assoc, <- Hm1 in Hv1. rewrite append_assoc, <- Hm2 in Hv2.
    congruence. }
  subst b2. rewrite Hm1 in Hm2. apply append_inv_l, append_inv_r in Hm2.
  split; congruence.
Qed.

Lemma X9_message_determines_input_witness :
  ServerJs.validateEmail (demo_env at_checker) tt {| email := "x' is valid." |}
  = JS.Return "The email 'x' is valid.' is invalid."
  /\ validator_isEmail (demo_env at_checker) "x' is valid."
     = validator_isEmail (demo_env uri_checker) "x' is valid.".
Proof.
  split; [reflexivity|].
  exact (proj2 (X9_message_determines_input (demo_env at_checker)
                  (demo_env uri_checker) "x' is valid." "x' is valid."
                  "The email 'x' is valid.' is invalid." eq_refl eq_refl)).
Defined.

(** X10: [server.js] never sets [Cache-Control].  When the static layer
    passes a request on without that header, the response of [server.js]
    has none under any capitalisation of the name, whatever the route. *)
Theorem X10_serverjs_sets_no_cache_control (env : environment) (req : Http.request)
        (res0 : Http.response) (name : string) :
  express_static env req Http.fresh = (res0, Express.Next) ->
  Http.getHeader "Cache-Control" res0 = None ->
  Http.lower name = "cache-control" ->
  Http.getHeader name (ServerJs.respond env req) = None.
Proof.
  intros Hstatic Hnone Hname.
  rewrite (ServerJs_past_static env req res0 Hstatic).
  unfold Http.getHeader in *. rewrite Hname.
  change (Http.lower "Cache-Control") with "cache-control" in Hnone.
  rewrite <- Hnone.
  apply (walk_passes (express env) "Cache-Control"
           "no-store, no-cache, must-revalidate, proxy-revalidate");
    [names_differ ..|apply routes_pass_cache_control].
Qed.

Lemma X10_serverjs_sets_no_cache_control_witness :
  Http.getHeader "CACHE-control"
    (ServerJs.respond (demo_env at_checker) (post_request "/graphql" "a@b.com"))
  = None.
Proof.
  exact (X10_serverjs_sets_no_cache_control (demo_env at_checker)
           (post_request "/graphql" "a@b.com") Http.fresh "CACHE-control"
           eq_refl eq_refl eq_refl).
Defined.

(** ** The endpoint *)

Lemma endpoint_response (env : environment) (req : Http.request)
      (res0 : Http.response) (a : args) (accepted : GraphqlHttp.media) :
  Express.mount_match "/graphql" (Http.req_path req) = true ->
  express_static env req Http.fresh = (res0, Express.Next) ->
  GraphqlHttp.operation_of (graphql env) req = GraphqlHttp.FieldQuery a accepted ->
  ServerJs.respond env req
  = GraphqlHttp.writeHead
      (GraphqlHttp.reply (graphql env) accepted (ServerJs.validateEmail env tt a)).1
      (GraphqlHttp.reply (graphql env) accepted (ServerJs.validateEmail env tt a)).2
      res0.
Proof.
  intros Hmount Hstatic Hop.
  rewrite (ServerJs_past_static env req res0 Hstatic).
  cbn [Express.walk]. rewrite Hmount.
  unfold GraphqlHttp.createHandler. rewrite Hop. reflexivity.
Qed.

Lemma writeHead_reply (lib : GraphqlHttp.library) (accepted : GraphqlHttp.media)
      (result : JS.completion string) (res : Http.response) :
  Http.statusCode
    (GraphqlHttp.writeHead (GraphqlHttp.reply lib accepted result).1
       (GraphqlHttp.reply lib accepted result).2 res) = 200
  /\ Http.getHeader "Content-Type"
       (GraphqlHttp.writeHead (GraphqlHttp.reply lib accepted result).1
          (GraphqlHttp.reply lib accepted result).2 res)
     = Some (GraphqlHttp.content_type accepted)
  /\ Http.body
       (GraphqlHttp.writeHead (GraphqlHttp.reply lib accepted result).1
          (GraphqlHttp.reply lib accepted result).2 res)
     = Some match result with
            | JS.Return message => GraphqlHttp.data_payload message
            | JS.Throw err => GraphqlHttp.field_error lib err
            end.
Proof.
  unfold GraphqlHttp.reply. cbn [fst snd]. unfold GraphqlHttp.writeHead.
  cbn [GraphqlHttp.status GraphqlHttp.contentType GraphqlHttp.allow
       GraphqlHttp.accept].
  unfold GraphqlHttp.setOptional. cbn [fmap option_fmap option_map].
  repeat split.
  change (Http.getHeader "Content-Type"
            (Http.setHeader "content-type" (GraphqlHttp.content_type accepted) res)
          = Some (GraphqlHttp.content_type accepted)).
  rewrite getHeader_setHeader, decide_True by reflexivity. reflexivity.
Qed.

Lemma content_type_not_html (accepted : GraphqlHttp.media) :
  JS.starts_with "text/html" (GraphqlHttp.content_type accepted) = false.
Proof. destruct accepted; reflexivity. Qed.

(** A client reads the message back out of the payload. *)
Lemma read_data_payload (message : string) :
  GraphqlHttp.read_data (GraphqlHttp.data_payload message) = Some message.
Proof.
  unfold GraphqlHttp.read_data.
  change (GraphqlHttp.strip_prefix _ (GraphqlHttp.data_payload message))
    with (Some (Json.stringify message +:+ "}}")).
  cbv beta iota. rewrite read_stringify. reflexivity.
Qed.

Lemma is_html_set_cache_control (value : string) (res : Http.response) :
  Http.is_html (Http.setHeader "Cache-Control" value res) = Http.is_html res.
Proof.
  unfold Http.is_html. rewrite getHeader_setHeader_ne by names_differ.
  reflexivity.
Qed.

(** An HTML response never comes out of the resolver: it is the same
    whatever the checker is. *)
Lemma html_response_without_resolver (env : environment) (chk : checker)
      (req : Http.request) :
  Http.is_html (ServerJs.respond env req) = true ->
  ServerJs.respond (with_checker chk env) req = ServerJs.respond env req.
Proof.
  intros Hhtml.
  destruct (express_static env req Http.fresh) as [res0 [|]] eqn:Hstatic.
  - rewrite (ServerJs_past_static env req res0 Hstatic) in *.
    rewrite (ServerJs_past_static (with_checker chk env) req res0 Hstatic).
    cbn [Express.walk] in *. cbn [with_checker express graphql] in *.
    destruct (Express.mount_match "/graphql" (Http.req_path req)); [|reflexivity].
    unfold GraphqlHttp.createHandler in *.
    destruct (GraphqlHttp.operation_of (graphql env) req) as [a accepted|i payload];
      [|reflexivity].
    exfalso. unfold GraphqlHttp.execute in Hhtml.
    unfold Http.is_html in Hhtml.
    rewrite (surjective_pairing (GraphqlHttp.reply _ _ _)) in Hhtml.
    rewrite (proj1 (proj2 (writeHead_reply _ _ _ _))) in Hhtml.
    rewrite content_type_not_html in Hhtml. discriminate.
  - unfold ServerJs.respond, Express.dispatch.
    rewrite !ServerJs_app_layers, !walk_use. cbn [with_checker express_static].
    rewrite Hstatic. reflexivity.
Qed.



(** ** The process *)

Lemma validateEmail_in_checker {heap : Type} (env : environment)
      (rt : Process.runtime heap) :
  (forall s hp, Process.isEmail rt s hp = (hp, validator_isEmail env s)) ->
  forall parent a hp,
    ServerJs.validateEmail_in heap rt parent a hp
    = (hp, ServerJs.validateEmail env parent a).
Proof.
  intros Hchk parent a hp.
  unfold ServerJs.validateEmail_in, Process.bind. rewrite Hchk. reflexivity.
Qed.



Lemma walk_keeps_heap {heap : Type} (st : Express.settings)
      (stack_in : list (Process.layer heap)) (stack : Express.app) :
  Forall2 layer_keeps_heap stack_in stack ->
  forall req res options hp,
    Process.walk heap st stack_in req res options hp
    = (hp, Express.walk st stack req res options).
Proof.
  induction 1 as [|l_in l stack_in stack Hl _ IH]; intros req res options hp;
    [reflexivity|].
  destruct l_in as [mount_in h_in|m_in path_in h_in], l as [mount h|m path h];
    cbn [layer_keeps_heap] in Hl; try contradiction.
  - destruct Hl as [-> Hh]. cbn [Process.walk Express.walk].
    destruct (match mount with
              | Some path => Express.mount_match path (Http.req_path req)
              | None => true
              end); [|apply IH].
    unfold Process.bind. rewrite Hh.
    destruct (h req res) as [res' [|]]; [apply IH | reflexivity].
  - destruct Hl as (-> & -> & Hh). cbn [Process.walk Express.walk].
    destruct (Express.route_match path (Http.req_path req)); [|apply IH].
    destruct (Express.method_match m req); [|apply IH].
    unfold Process.bind. rewrite Hh.
    destruct (h req res) as [res' [|]]; [apply IH | reflexivity].
Qed.

(** With libraries that keep no state, the module run on the heap answers
    as the plain model does and leaves the heap as it found it. *)
Lemma respond_in_keeps_heap {heap : Type} (env : environment)
      (rt : Process.runtime heap) :
  (forall s h, Process.isEmail rt s h = (h, validator_isEmail env s)) ->
  (forall req res h, Process.static rt req res h = (h, express_static env req res)) ->
  (forall req h,
      Process.operation_of rt req h
      = (h, GraphqlHttp.operation_of (graphql env) req)) ->
  forall req hp,
    ServerJs.respond_in env heap rt req hp = (hp, ServerJs.respond env req).
Proof.
  intros Hchk Hstatic Hop req hp.
  unfold ServerJs.respond_in, Process.dispatch, ServerJs.respond, Express.dispatch.
  apply walk_keeps_heap. rewrite ServerJs_app_layers.
  unfold ServerJs.app_in, Process.get, Process.use_at, Process.use. cbn [app].
  constructor; [|constructor; [|constructor; [|constructor]]];
    cbn [layer_keeps_heap].
  - split; [reflexivity|]. intros. apply Hstatic.
  - split; [reflexivity|]. intros req' res h.
    unfold Process.createHandler, GraphqlHttp.createHandler, Process.bind.
    rewrite Hop.
    destruct (GraphqlHttp.operation_of (graphql env) req') as [a accepted|i payload];
      [|reflexivity].
    rewrite (validateEmail_in_checker env rt Hchk).
    unfold GraphqlHttp.execute. cbn [GraphqlHttp.Query_validateEmail ServerJs.schema].
    destruct (GraphqlHttp.reply (graphql env) accepted
                (ServerJs.validateEmail env tt a)). reflexivity.
  - repeat split; reflexivity.
Qed.



(** ** The explorer page *)

Lemma freshness_empty_tag (st : Express.settings) (reqHeaders : gmap string string)
      (lastModified : option string) :
  Express.freshness st reqHeaders (Some EmptyString) lastModified
  = Express.freshness st reqHeaders None lastModified.
Proof. reflexivity. Qed.

(** [send] on a response that has status 200 and none of the headers it
    looks at: the status, content type and body it leaves. *)
Lemma send_plain (st : Express.settings) (req : Http.request) (text : string)
      (res : Http.response) :
  Http.statusCode res = 200 ->
  Http.getHeader "Content-Type" res = None ->
  Http.getHeader "ETag" res = None ->
  Http.getHeader "Last-Modified" res = None ->
  let conditional :=
    match Http.req_method req with
    | Http.GET | Http.HEAD =>
        Express.freshness st (Http.req_headers req)
          (Some (Express.etag st text)) None
    | _ => false
    end in
  Http.statusCode (Express.send st req text res)
  = (if conditional then 304 else 200)
  /\ Http.getHeader "Content-Type" (Express.send st req text res)
     = (if conditional then None else Some "text/html; charset=utf-8")
  /\ Http.body (Express.send st req text res)
     = if Http.method_eqb (Http.req_method req) Http.HEAD then None
       else Some (if conditional then EmptyString else text).
Proof.
  intros Hstatus Htype Htag Hmod conditional.
  unfold Express.send. rewrite Htype. cbv beta iota zeta.
  set (res1 := Http.setHeader "Content-Type" "text/html; charset=utf-8" res).
  set (res2 := Http.setHeader "Content-Length" _ res1).
  assert (Http.getHeader "ETag" res2 = None) as Htag2.
  { unfold res2, res1. rewrite !getHeader_setHeader_ne by names_differ.
    exact Htag. }
  rewrite Htag2. cbn [Http.truthy].
  set (res3 := match Express.etag st text with
               | EmptyString => res2
               | String c tag => Http.setHeader "ETag" (String c tag) res2
               end).
  assert (Http.statusCode res3 = 200) as Hstatus3.
  { unfold res3. destruct (Express.etag st text); exact Hstatus. }
  assert (Http.getHeader "Content-Type" res3 = Some "text/html; charset=utf-8")
    as Htype3.
  { unfold res3, res2, res1. destruct (Express.etag st text);
      rewrite ?getHeader_setHeader_ne by names_differ;
      apply getHeader_setHeader_eq. }
  assert (Express.req_fresh st req res3 = conditional) as Hfresh.
  { unfold Express.req_fresh, conditional. rewrite Hstatus3.
    assert (Http.getHeader "Last-Modified" res3 = None) as ->.
    { unfold res3, res2, res1. destruct (Express.etag st text);
        rewrite ?getHeader_setHeader_ne by names_differ; exact Hmod. }
    assert (Express.freshness st (Http.req_headers req)
              (Http.getHeader "ETag" res3) None
            = Express.freshness st (Http.req_headers req)
                (Some (Express.etag st text)) None) as ->.
    { unfold res3. destruct (Express.etag st text) as [|c tag].
      - rewrite Htag2. symmetry. apply freshness_empty_tag.
      - rewrite getHeader_setHeader_eq. reflexivity. }
    reflexivity. }
  rewrite Hfresh. destruct conditional.
  - cbn [Http.statusCode Http.setStatus Nat.eqb orb Http.removeHeader
         Http.headers Http.body].
    repeat split.
    change (Http.getHeader "Content-Type"
              (Http.removeHeader "Transfer-Encoding"
                 (Http.removeHeader "Content-Length"
                    (Http.removeHeader "Content-Type" res3))) = None).
    rewrite !getHeader_removeHeader_ne by names_differ.
    apply getHeader_removeHeader_eq.
  - rewrite Hstatus3. cbn [Nat.eqb orb]. rewrite Hstatus3. cbn [Nat.eqb].
    repeat split; [exact Hstatus3 | exact Htype3].
Qed.

(** What either entry point answers on the explorer route. *)
Lemma explorer_response (env : environment) (req : Http.request) :
  Http.req_method req = Http.GET \/ Http.req_method req = Http.HEAD ->
  Express.route_match "/graphiql" (Http.req_path req) = true ->
  express_static env req Http.fresh = (Http.fresh, Express.Next) ->
  forall r,
    r = ServerJs.respond env req \/ r = Part000.respond env req ->
    Http.statusCode r
    = (if Express.freshness (express env) (Http.req_headers req)
            (Some (Express.etag (express env) graphiqlPage)) None
       then 304 else 200)
    /\ Http.getHeader "Content-Type" r
       = (if Express.freshness (express env) (Http.req_headers req)
               (Some (Express.etag (express env) graphiqlPage)) None
          then None else Some "text/html; charset=utf-8")
    /\ Http.body r
       = if Http.method_eqb (Http.req_method req) Http.HEAD then None
         else Some (if Express.freshness (express env) (Http.req_headers req)
                         (Some (Express.etag (express env) graphiqlPage)) None
                    then EmptyString else graphiqlPage).
Proof.
  intros Hm Hroute Hstatic.
  assert (ServerJs.respond env req
          = Express.send (express env) req graphiqlPage Http.fresh) as Hpage.
  { rewrite (ServerJs_past_static env req _ Hstatic). cbn [Express.walk].
    rewrite (routes_disjoint _ Hroute), Hroute.
    assert (Express.method_match Http.GET req = true) as ->
        by (unfold Express.method_match; destruct Hm as [-> | ->]; reflexivity).
    reflexivity. }
  pose proof (send_plain (express env) req graphiqlPage Http.fresh
                eq_refl eq_refl eq_refl eq_refl) as Hsend.
  cbv zeta in Hsend.
  assert (match Http.req_method req with
          | Http.GET | Http.HEAD =>
              Express.freshness (express env) (Http.req_headers req)
                (Some (Express.etag (express env) graphiqlPage)) None
          | _ => false
          end
          = Express.freshness (express env) (Http.req_headers req)
              (Some (Express.etag (express env) graphiqlPage)) None) as Hc
      by (destruct Hm as [-> | ->]; reflexivity).
  rewrite Hc, <- Hpage in Hsend.
  intros r [-> | ->]; [exact Hsend|].
  rewrite (Part000_past_static env req _ Hstatic).
  rewrite getHeader_setHeader_ne by names_differ. exact Hsend.
Qed.

Lemma unconditional_request (st : Express.settings) (reqHeaders : gmap string string)
      (tag lastModified : option string) :
  reqHeaders !! "if-none-match" = None ->
  reqHeaders !! "if-modified-since" = None ->
  Express.freshness st reqHeaders tag lastModified = false.
Proof. intros H1 H2. unfold Express.freshness. rewrite H1, H2. reflexivity. Qed.

(** C8 (as stated, refuted): a conditional [GET] of [/graphiql] is answered
    304 with no content type and an empty body by either entry point, and a
    file of the static directory named [graphiql] is served in place of the
    page. *)
Lemma C8_not_every_get_receives_the_page :
  Http.statusCode
    (ServerJs.respond (demo_env at_checker) (conditional_get "/graphiql")) = 304
  /\ Http.getHeader "Content-Type"
       (ServerJs.respond (demo_env at_checker) (conditional_get "/graphiql"))
     = None
  /\ Http.body
       (ServerJs.respond (demo_env at_checker) (conditional_get "/graphiql"))
     = Some EmptyString
  /\ Http.statusCode
       (Part000.respond (demo_env at_checker) (conditional_get "/graphiql")) = 304
  /\ Http.body
       (ServerJs.respond (shadowed_env at_checker) (get_request "/graphiql"))
     = Some "a file of the directory".
Proof. repeat split; vm_compute; reflexivity. Qed.

(** C8 (amended): a [GET] of [/graphiql] that the static directory does not
    answer gets, from either entry point, the explorer page with status 200
    and an HTML content type, unless it is a conditional request that
    Express finds fresh, which gets status 304, no content type and an empty
    body.  A request with neither [If-None-Match] nor [If-Modified-Since] is
    never fresh.  The page is one fixed text, which holds the mount point. *)
Theorem C8_graphiql_page (env : environment) (req : Http.request) :
  Http.req_method req = Http.GET ->
  Http.req_path req = "/graphiql" ->
  express_static env req Http.fresh = (Http.fresh, Express.Next) ->
  (forall r,
      r = ServerJs.respond env req \/ r = Part000.respond env req ->
      Http.statusCode r
      = (if Express.freshness (express env) (Http.req_headers req)
              (Some (Express.etag (express env) graphiqlPage)) None
         then 304 else 200)
      /\ Http.getHeader "Content-Type" r
         = (if Express.freshness (express env) (Http.req_headers req)
                 (Some (Express.etag (express env) graphiqlPage)) None
            then None else Some "text/html; charset=utf-8")
      /\ Http.body r
         = Some (if Express.freshness (express env) (Http.req_headers req)
                      (Some (Express.etag (express env) graphiqlPage)) None
                 then EmptyString else graphiqlPage))
  /\ (Http.req_headers req !! "if-none-match" = None ->
      Http.req_headers req !! "if-modified-since" = None ->
      Express.freshness (express env) (Http.req_headers req)
        (Some (Express.etag (express env) graphiqlPage)) None = false)
  /\ includes mountPoint graphiqlPage = true.
Proof.
  intros Hm Hp Hstatic. split; [|split].
  - intros r Hr.
    assert (Express.route_match "/graphiql" (Http.req_path req) = true) as Hroute
        by (rewrite Hp; reflexivity).
    pose proof (explorer_response env req (or_introl Hm) Hroute Hstatic r Hr)
      as (Hs & Ht & Hb).
    rewrite Hm in Hb. cbn [Http.method_eqb] in Hb. repeat split; assumption.
  - apply unconditional_request.
  - vm_compute. reflexivity.
Qed.

Lemma C8_graphiql_page_witness :
  Http.statusCode (ServerJs.respond (demo_env at_checker) (get_request "/graphiql"))
  = 200
  /\ Http.body (Part000.respond (demo_env at_checker) (get_request "/graphiql"))
     = Some graphiqlPage
  /\ Http.statusCode
       (Part000.respond (demo_env at_checker) (conditional_get "/graphiql"))
     = 304.
Proof.
  pose proof (C8_graphiql_page (demo_env at_checker) (get_request "/graphiql")
                eq_refl eq_refl eq_refl) as (Hplain & _ & _).
  pose proof (C8_graphiql_page (demo_env at_checker) (conditional_get "/graphiql")
                eq_refl eq_refl eq_refl) as (Hcond & _ & _).
  split; [|split].
  - exact (proj1 (Hplain _ (or_introl eq_refl))).
  - exact (proj2 (proj2 (Hplain _ (or_intror eq_refl)))).
  - exact (proj1 (Hcond _ (or_intror eq_refl))).
Defined.

(** X7: the explorer route answers [GET] and [HEAD] on every spelling of its
    path the router accepts (any case, one trailing slash) when the static
    layer passes the request on: status 200 and an HTML content type, with
    the page as body for [GET] and no body for [HEAD]; a conditional request
    that Express finds fresh gets status 304, no content type and no text
    instead.  The endpoint never takes such a path. *)
Theorem X7_explorer_route (env : environment) (req : Http.request) :
  Http.req_method req = Http.GET \/ Http.req_method req = Http.HEAD ->
  Express.route_match "/graphiql" (Http.req_path req) = true ->
  express_static env req Http.fresh = (Http.fresh, Express.Next) ->
  forall r,
    r = ServerJs.respond env req \/ r = Part000.respond env req ->
    Http.statusCode r
    = (if Express.freshness (express env) (Http.req_headers req)
            (Some (Express.etag (express env) graphiqlPage)) None
       then 304 else 200)
    /\ Http.getHeader "Content-Type" r
       = (if Express.freshness (express env) (Http.req_headers req)
               (Some (Express.etag (express env) graphiqlPage)) None
          then None else Some "text/html; charset=utf-8")
    /\ Http.body r
       = if Http.method_eqb (Http.req_method req) Http.HEAD then None
         else Some (if Express.freshness (express env) (Http.req_headers req)
                         (Some (Express.etag (express env) graphiqlPage)) None
                    then EmptyString else graphiqlPage).
Proof. apply explorer_response. Qed.

Lemma X7_explorer_route_witness :
  Http.statusCode
    (ServerJs.respond (demo_env at_checker)
       {| Http.req_method := Http.HEAD; Http.req_path := "/GraphiQL/";
          Http.req_query := "x=1"; Http.req_headers := ∅;
          Http.req_body := EmptyString |}) = 200
  /\ Http.body
       (Part000.respond (demo_env at_checker)
          {| Http.req_method := Http.HEAD; Http.req_path := "/GraphiQL/";
             Http.req_query := "x=1"; Http.req_headers := ∅;
             Http.req_body := EmptyString |}) = None.
Proof.
  pose proof (X7_explorer_route (demo_env at_checker)
                {| Http.req_method := Http.HEAD; Http.req_path := "/GraphiQL/";
                   Http.req_query := "x=1"; Http.req_headers := ∅;
                   Http.req_body := EmptyString |}
                (or_intror eq_refl) eq_refl eq_refl) as H.
  split.
  - exact (proj1 (H _ (or_introl eq_refl))).
  - exact (proj2 (proj2 (H _ (or_intror eq_refl)))).
Defined.



(** X6: a request the static layer passes on and whose path is not under
    [/graphql] is answered 404 with the error page (without it for [HEAD])
    by either entry point when its path is not that of the explorer route,
    or when its method is none of [GET], [HEAD] and [OPTIONS]: a [POST] to
    [/graphiql] as well as an unknown path.  An [OPTIONS] request on the
    explorer route gets the automatic answer instead: status 200 with
    [Allow: GET,HEAD]. *)
Theorem X6_unrouted_request_is_404 (env : environment) (req : Http.request)
        (res0 : Http.response) :
  express_static env req Http.fresh = (res0, Express.Next) ->
  Express.mount_match "/graphql" (Http.req_path req) = false ->
  forall r,
    r = ServerJs.respond env req \/ r = Part000.respond env req ->
    (Express.route_match "/graphiql" (Http.req_path req) = false
     \/ (Http.req_method req <> Http.GET /\ Http.req_method req <> Http.HEAD
         /\ Http.req_method req <> Http.OPTIONS) ->
     Http.statusCode r = 404
     /\ Http.body r
        = if Http.method_eqb (Http.req_method req) Http.HEAD then None
          else Some (Express.error_page (express env) req))
    /\ (Express.route_match "/graphiql" (Http.req_path req) = true ->
        Http.req_method req = Http.OPTIONS ->
        res0 = Http.fresh ->
        Http.statusCode r = 200
        /\ Http.getHeader "Allow" r = Some "GET,HEAD"
        /\ Http.body r = Some "GET,HEAD").
Proof.
  intros Hstatic Hmount.
  assert (forall r,
             r = ServerJs.respond env req \/ r = Part000.respond env req ->
             Http.statusCode r = Http.statusCode (ServerJs.respond env req)
             /\ Http.getHeader "Allow" r
                = Http.getHeader "Allow" (ServerJs.respond env req)
             /\ Http.body r = Http.body (ServerJs.respond env req)) as Hboth.
  { intros r [-> | ->]; [repeat split|].
    rewrite (Part000_past_static env req res0 Hstatic).
    rewrite getHeader_setHeader_ne by names_differ. repeat split. }
  intros r Hr. destruct (Hboth r Hr) as (-> & -> & ->). clear r Hr Hboth.
  rewrite (ServerJs_past_static env req res0 Hstatic).
  cbn [Express.walk]. rewrite Hmount. split.
  - intros Hroute.
    match goal with
    | |- Http.statusCode ?x = _ /\ _ =>
        assert (x = Express.notFound (express env) req res0) as ->
    end.
    { destruct Hroute as [-> | (Hget & Hhead & Hopt)].
      - rewrite andb_false_r. reflexivity.
      - unfold Express.method_match.
        destruct (Http.req_method req); try congruence;
          destruct (Express.route_match _ _); reflexivity. }
    split; reflexivity.
  - intros Hroute Hm ->. rewrite Hroute. unfold Express.method_match. rewrite Hm.
    cbn [Http.method_eqb orb andb].
    change (Express.appendMethods [] (Express.route_options Http.GET))
      with ["GET"; "HEAD"].
    change (negb (bool_decide (["GET"; "HEAD"] = []))) with true.
    cbv beta iota. unfold Express.sendOptionsResponse. cbv zeta.
    change (String.concat "," ["GET"; "HEAD"]) with "GET,HEAD".
    pose proof (send_plain (express env) req "GET,HEAD"
                  (Http.setHeader "Allow" "GET,HEAD" Http.fresh)
                  eq_refl eq_refl eq_refl eq_refl) as (Hs & _ & Hb).
    rewrite Hm in Hs, Hb. cbn [Http.method_eqb] in Hb.
    split; [exact Hs|]. split; [|exact Hb].
    rewrite get_send_other by names_differ. reflexivity.
Qed.

Lemma X6_unrouted_request_is_404_witness :
  Http.statusCode (ServerJs.respond (demo_env at_checker)
                     (post_request "/graphiql" "x")) = 404
  /\ Http.body (Part000.respond (demo_env at_checker) (get_request "/graphiq"))
     = Some "Cannot find /graphiq"
  /\ Http.getHeader "Allow"
       (Part000.respond (demo_env at_checker) (options_request "/graphiql"))
     = Some "GET,HEAD".
Proof.
  split; [|split].
  - refine (proj1 (proj1 (X6_unrouted_request_is_404 (demo_env at_checker)
              (post_request "/graphiql" "x") Http.fresh eq_refl eq_refl
              _ (or_introl eq_refl)) _)).
    right. repeat split; discriminate.
  - refine (proj2 (proj1 (X6_unrouted_request_is_404 (demo_env at_checker)
              (get_request "/graphiq") Http.fresh eq_refl eq_refl
              _ (or_intror eq_refl)) _)).
    left. reflexivity.
  - exact (proj1 (proj2 (proj2 (X6_unrouted_request_is_404 (demo_env at_checker)
              (options_request "/graphiql") Http.fresh eq_refl eq_refl
              _ (or_intror eq_refl)) eq_refl eq_refl eq_refl))).
Defined.
